(** * gear/metrics/metrics.py: counters, gauges and the periodic upload

    A shallow embedding of [gear.metrics.metrics]: the [Metrics] object with
    its two [defaultdict]s of [monitoring_v3.Point] and its registry of gauge
    callbacks, the operations [increment], [gauge], [query_gauges],
    [make_time_series], [push_metrics], [ResourceData.add_to] and the loop
    [Metrics.run].

    Modelling choices.
    - A Python [dict] is an association list in insertion order with
      first-match lookup; assigning to a present key keeps its position.
    - [double_value] is an IEEE binary64 number, as a Python [float].
    - [datetime.datetime.now()], the monitoring client and the other asyncio
      tasks are the outside world: an [Env] of oracles, read through counters
      kept in the [World], which also records a trace of what was done.
    - Python code is a state transformer that returns or raises; what was
      mutated before a raise stays mutated.
    - A gauge function reads the state of the process and returns a number
      or raises; it does not touch the Metrics object. *)

From Stdlib Require Import String List ZArith Floats Bool Lia.
Import ListNotations.

Local Open Scope string_scope.
Local Open Scope list_scope.

(** ** Python dictionaries *)

Module PyDict.

Definition dict (V : Type) : Type := list (string * V).

Section Ops.
Context {V : Type}.

Fixpoint get (k : string) (d : dict V) : option V :=
  match d with
  | [] => None
  | (k', v) :: d' => if String.eqb k' k then Some v else get k d'
  end.

(** [d[k] = v] *)
Fixpoint set (k : string) (v : V) (d : dict V) : dict V :=
  match d with
  | [] => [(k, v)]
  | (k', v') :: d' =>
      if String.eqb k' k then (k', v) :: d' else (k', v') :: set k v d'
  end.

Definition keys (d : dict V) : list string := map fst d.

Definition values (d : dict V) : list V := map snd d.

Definition len (d : dict V) : nat := length d.

(** [defaultdict.__getitem__]: a missing key is first bound to the
    factory's value. *)
Definition getitem_default (factory : V) (k : string) (d : dict V)
  : V * dict V :=
  match get k d with
  | Some v => (v, d)
  | None => (factory, set k factory d)
  end.

(** What every real dictionary satisfies: a key occurs once. *)
Definition wf (d : dict V) : Prop := NoDup (keys d).

End Ops.

End PyDict.

Import PyDict.

(** ** Exceptions and results *)

Inductive exn : Type :=
| GoogleAPIError (msg : string)
| Exception (msg : string).

Inductive outcome (A : Type) : Type :=
| Returns (a : A)
| Raises (e : exn).

Arguments Returns {A} a.
Arguments Raises {A} e.

(** ** The monitoring_v3 messages that the module fills in *)

(** An unset timestamp field is [None]; times are microseconds. *)
Record TimeInterval : Type := mkTimeInterval {
  start_time : option Z;
  end_time : option Z
}.

Record TypedValue : Type := mkTypedValue {
  double_value : float
}.

Record Point : Type := mkPoint {
  interval : TimeInterval;
  value : TypedValue
}.

(** [monitoring_v3.Point()] *)
Definition Point_new : Point :=
  {| interval := {| start_time := None; end_time := None |};
     value := {| double_value := 0%float |} |}.

Inductive MetricKind : Type :=
| METRIC_KIND_UNSPECIFIED
| GAUGE
| DELTA
| CUMULATIVE.

Record MonitoredResource : Type := mkMonitoredResource {
  type : string;
  labels : dict string
}.

Record TimeSeries : Type := mkTimeSeries {
  metric_type : string;
  metric_kind : MetricKind;
  resource : MonitoredResource;
  points : list Point
}.

(** [monitoring_v3.TimeSeries()] *)
Definition TimeSeries_new : TimeSeries :=
  {| metric_type := "";
     metric_kind := METRIC_KIND_UNSPECIFIED;
     resource := {| type := ""; labels := [] |};
     points := [] |}.

Record CreateTimeSeriesRequest : Type := mkCreateTimeSeriesRequest {
  name : string;
  time_series : list TimeSeries
}.

(** ** Module constants *)

Definition PROJECT_ID : string := "hail-vdc".
Definition CLUSTER_NAME : string := "vdc".
Definition RESOURCE_TYPE : string := "k8s_container".
Definition METRIC_BASE : string := "custom.googleapis.com".
Definition MIN_GRANULARITY_SECS : Z := 60.

(** ** ResourceData *)

Record ResourceData : Type := mkResourceData {
  resource_type : string;
  cluster_name : string;
  namespace_name : string;
  location : string;
  container_name : string;
  pod_name : string
}.

Definition set_resource_type (t : string) (s : TimeSeries) : TimeSeries :=
  {| metric_type := metric_type s;
     metric_kind := metric_kind s;
     resource := {| type := t; labels := labels (resource s) |};
     points := points s |}.

Definition set_resource_label (k v : string) (s : TimeSeries) : TimeSeries :=
  {| metric_type := metric_type s;
     metric_kind := metric_kind s;
     resource := {| type := type (resource s);
                    labels := PyDict.set k v (labels (resource s)) |};
     points := points s |}.

(** [ResourceData.add_to] *)
Definition add_to (self : ResourceData) (gcp_series : TimeSeries) : TimeSeries :=
  let gcp_series := set_resource_type (resource_type self) gcp_series in
  let gcp_series := set_resource_label "cluster_name" (cluster_name self) gcp_series in
  let gcp_series := set_resource_label "namespace_name" (namespace_name self) gcp_series in
  let gcp_series := set_resource_label "location" (location self) gcp_series in
  let gcp_series := set_resource_label "container_name" (container_name self) gcp_series in
  set_resource_label "pod_name" (pod_name self) gcp_series.

(** ** Field assignments on a Point *)

Definition set_double_value (x : float) (p : Point) : Point :=
  {| interval := interval p; value := {| double_value := x |} |}.

Definition set_start_time (t : Z) (p : Point) : Point :=
  {| interval := {| start_time := Some t; end_time := end_time (interval p) |};
     value := value p |}.

Definition set_end_time (t : Z) (p : Point) : Point :=
  {| interval := {| start_time := start_time (interval p); end_time := Some t |};
     value := value p |}.

Section Model.

(** The in-process state that gauge functions read. *)
Context {AppState : Type}.

(** A registered gauge function: no arguments, reads the process state,
    returns a number or raises. *)
Definition Callable : Type := AppState -> outcome float.

(** ** The Metrics object *)

Record Metrics : Type := mkMetrics {
  project_id : string;
  resource_data : ResourceData;
  counters : dict Point;
  gauges : dict Point;
  gauge_callbacks : dict Callable
}.

(** [Metrics.__init__] ([self.client] is the sink of the [Env]). *)
Definition Metrics_init (project_id : string) (resource_data : ResourceData)
  : Metrics :=
  {| project_id := project_id;
     resource_data := resource_data;
     counters := [];
     gauges := [];
     gauge_callbacks := [] |}.

Definition set_counters (d : dict Point) (m : Metrics) : Metrics :=
  {| project_id := project_id m;
     resource_data := resource_data m;
     counters := d;
     gauges := gauges m;
     gauge_callbacks := gauge_callbacks m |}.

Definition set_gauges (d : dict Point) (m : Metrics) : Metrics :=
  {| project_id := project_id m;
     resource_data := resource_data m;
     counters := counters m;
     gauges := d;
     gauge_callbacks := gauge_callbacks m |}.

Definition set_gauge_callbacks (d : dict Callable) (m : Metrics) : Metrics :=
  {| project_id := project_id m;
     resource_data := resource_data m;
     counters := counters m;
     gauges := gauges m;
     gauge_callbacks := d |}.

(** ** The world outside the object *)

Inductive Event : Type :=
| EvSleep (secs : Z)
| EvGaugeCall (metric_name : string) (gauge_f : Callable)
| EvCreateTimeSeries (request : CreateTimeSeriesRequest).

(** What another task does while the loop sleeps. *)
Inductive Action : Type :=
| ActIncrement (metric_name : string)
| ActGauge (metric_name : string) (fn : Callable)
| ActSetApp (a : AppState).

Record World : Type := mkWorld {
  app_state : AppState;
  now_calls : nat;
  sink_calls : nat;
  sleep_calls : nat;
  trace : list Event
}.

Record Env : Type := mkEnv {
  (** the n-th reading of [datetime.datetime.now()] *)
  clock : nat -> Z;
  (** the n-th call of [client.create_time_series]: [None] on success *)
  create_time_series : nat -> CreateTimeSeriesRequest -> option exn;
  (** what the other tasks do during the n-th [asyncio.sleep] *)
  other_tasks : nat -> list Action
}.

Record State : Type := mkState {
  self : Metrics;
  world : World
}.

(** ** Computations *)

Definition M (A : Type) : Type := State -> outcome A * State.

Definition ret {A : Type} (a : A) : M A := fun st => (Returns a, st).

Definition raise {A : Type} (e : exn) : M A := fun st => (Raises e, st).

Definition bind {A B : Type} (c : M A) (k : A -> M B) : M B :=
  fun st =>
    match c st with
    | (Returns a, st') => k a st'
    | (Raises e, st') => (Raises e, st')
    end.

Definition get_self : M Metrics := fun st => (Returns (self st), st).

Definition modify_self (f : Metrics -> Metrics) : M unit :=
  fun st => (Returns tt, {| self := f (self st); world := world st |}).

Definition get_world : M World := fun st => (Returns (world st), st).

Definition modify_world (f : World -> World) : M unit :=
  fun st => (Returns tt, {| self := self st; world := f (world st) |}).

(** [try: body except GoogleAPIError as e: handler e] *)
Definition try_except_GoogleAPIError {A : Type}
    (body : M A) (handler : exn -> M A) : M A :=
  fun st =>
    match body st with
    | (Raises (GoogleAPIError msg), st') => handler (GoogleAPIError msg) st'
    | r => r
    end.

End Model.

Arguments Metrics : clear implicits.
Arguments Event : clear implicits.
Arguments Action : clear implicits.
Arguments World : clear implicits.
Arguments Env : clear implicits.
Arguments State : clear implicits.
Arguments Callable : clear implicits.

Declare Scope py_scope.
Delimit Scope py_scope with py.
Notation "x <- c ;; k" := (bind c (fun x => k))
  (at level 61, c at next level, right associativity) : py_scope.
Notation "' pat <- c ;; k" := (bind c (fun x => match x with pat => k end))
  (at level 61, pat pattern, c at next level, right associativity) : py_scope.
Notation "c ;; k" := (bind c (fun _ => k))
  (at level 61, right associativity) : py_scope.

(** ** The operations of the module *)

Section Operations.

Context {AppState : Type}.
Variable env : Env AppState.

Local Open Scope py_scope.

Abbreviation M := (@M AppState).

Definition tick_now (w : World AppState) : World AppState :=
  {| app_state := app_state w;
     now_calls := S (now_calls w);
     sink_calls := sink_calls w;
     sleep_calls := sleep_calls w;
     trace := trace w |}.

Definition tick_sink (w : World AppState) : World AppState :=
  {| app_state := app_state w;
     now_calls := now_calls w;
     sink_calls := S (sink_calls w);
     sleep_calls := sleep_calls w;
     trace := trace w |}.

Definition tick_sleep (w : World AppState) : World AppState :=
  {| app_state := app_state w;
     now_calls := now_calls w;
     sink_calls := sink_calls w;
     sleep_calls := S (sleep_calls w);
     trace := trace w |}.

Definition log (e : Event AppState) (w : World AppState) : World AppState :=
  {| app_state := app_state w;
     now_calls := now_calls w;
     sink_calls := sink_calls w;
     sleep_calls := sleep_calls w;
     trace := trace w ++ [e] |}.

Definition set_app_state (a : AppState) (w : World AppState) : World AppState :=
  {| app_state := a;
     now_calls := now_calls w;
     sink_calls := sink_calls w;
     sleep_calls := sleep_calls w;
     trace := trace w |}.

(** [datetime.datetime.now()] *)
Definition now : M Z :=
  w <- get_world ;;
  modify_world tick_now ;;
  ret (clock env (now_calls w)).

(** [for x in l: body x] *)
Fixpoint for_each {A : Type} (l : list A) (body : A -> M unit) : M unit :=
  match l with
  | [] => ret tt
  | x :: l' => body x ;; for_each l' body
  end.

(** [[f x for x in l]] *)
Fixpoint list_comp {A B : Type} (l : list A) (f : A -> M B) : M (list B) :=
  match l with
  | [] => ret []
  | x :: l' => y <- f x ;; ys <- list_comp l' f ;; ret (y :: ys)
  end.

(** [self.counters[metric_name]]: the Point bound to the key, which is
    first bound to a new Point when missing. *)
Definition counters_getitem (metric_name : string) : M Point :=
  s <- get_self ;;
  let '(point, d) := getitem_default Point_new metric_name (counters s) in
  modify_self (set_counters d) ;;
  ret point.

Definition gauges_getitem (metric_name : string) : M Point :=
  s <- get_self ;;
  let '(point, d) := getitem_default Point_new metric_name (gauges s) in
  modify_self (set_gauges d) ;;
  ret point.

(** An assignment to a field of the Point object bound to a key: the
    dictionary is the only holder of the object, so the mutated Point is
    what the key is bound to afterwards. *)
Definition counters_mutate (metric_name : string) (point : Point) : M unit :=
  modify_self (fun s => set_counters (PyDict.set metric_name point (counters s)) s).

Definition gauges_mutate (metric_name : string) (point : Point) : M unit :=
  modify_self (fun s => set_gauges (PyDict.set metric_name point (gauges s)) s).

(** [Metrics.increment] *)
Definition increment (metric_name : string) : M unit :=
  (* self.counters[metric_name].value.double_value += 1 *)
  point <- counters_getitem metric_name ;;
  counters_mutate metric_name
    (set_double_value (double_value (value point) + 1)%float point) ;;
  (* self.counters[metric_name].interval.start_time = datetime.datetime.now() *)
  t <- now ;;
  point <- counters_getitem metric_name ;;
  counters_mutate metric_name (set_start_time t point).

(** The decorator [gauge(metric_name)] applied to [fun]. *)
Definition gauge (metric_name : string) (fn : Callable AppState)
  : M (Callable AppState) :=
  modify_self (fun s =>
    set_gauge_callbacks (PyDict.set metric_name fn (gauge_callbacks s)) s) ;;
  ret fn.

(** The decorator [count(metric_name)] applied to [fun]: the wrapped call. *)
Definition count {A : Type} (metric_name : string) (fn : M A) : M A :=
  increment metric_name ;;
  fn.

(** [gauge_f()] *)
Definition call_gauge (metric_name : string) (gauge_f : Callable AppState)
  : M float :=
  modify_world (log (EvGaugeCall metric_name gauge_f)) ;;
  w <- get_world ;;
  match gauge_f (app_state w) with
  | Returns x => ret x
  | Raises e => raise e
  end.

(** The body of the loop of [Metrics.query_gauges]: the right-hand side
    [gauge_f()] is evaluated before [self.gauges[metric_name]]. *)
Definition query_gauges_body (item : string * Callable AppState) : M unit :=
  let '(metric_name, gauge_f) := item in
  x <- call_gauge metric_name gauge_f ;;
  point <- gauges_getitem metric_name ;;
  gauges_mutate metric_name (set_double_value x point).

(** [Metrics.query_gauges] *)
Definition query_gauges : M unit :=
  s <- get_self ;;
  for_each (gauge_callbacks s) query_gauges_body.

(** [Metrics.make_time_series]. [point] is the object held by the
    dictionary: the Point with its [end_time] assigned is returned next to
    the series, for the caller to record the mutation; [points.append]
    copies it into the series. *)
Definition make_time_series (metric_name : string) (point : Point)
    (kind : MetricKind) : M (TimeSeries * Point) :=
  s <- get_self ;;
  let gcp_series := TimeSeries_new in
  let gcp_series :=
    {| metric_type := METRIC_BASE ++ "/" ++ metric_name;
       metric_kind := metric_kind gcp_series;
       resource := resource gcp_series;
       points := points gcp_series |} in
  let gcp_series :=
    {| metric_type := metric_type gcp_series;
       metric_kind := kind;
       resource := resource gcp_series;
       points := points gcp_series |} in
  let gcp_series := add_to (resource_data s) gcp_series in
  t <- now ;;
  let point := set_end_time t point in
  let gcp_series :=
    {| metric_type := metric_type gcp_series;
       metric_kind := metric_kind gcp_series;
       resource := resource gcp_series;
       points := points gcp_series ++ [point] |} in
  ret (gcp_series, point).

(** [MetricServiceClient.common_project_path] of the client library. *)
Definition common_project_path (project : string) : string :=
  "projects/" ++ project.

(** [self.client.create_time_series(series_request)] *)
Definition client_create_time_series (series_request : CreateTimeSeriesRequest)
  : M unit :=
  modify_world (log (EvCreateTimeSeries series_request)) ;;
  w <- get_world ;;
  modify_world tick_sink ;;
  match create_time_series env (sink_calls w) series_request with
  | None => ret tt
  | Some e => raise e
  end.

(** The elements of the two comprehensions of [Metrics.push_metrics]. *)
Definition counter_series_item (item : string * Point) : M TimeSeries :=
  let '(metric_name, point) := item in
  '(gcp_series, point') <- make_time_series metric_name point CUMULATIVE ;;
  counters_mutate metric_name point' ;;
  ret gcp_series.

Definition gauge_series_item (item : string * Point) : M TimeSeries :=
  let '(metric_name, point) := item in
  '(gcp_series, point') <- make_time_series metric_name point GAUGE ;;
  gauges_mutate metric_name point' ;;
  ret gcp_series.

(** [Metrics.push_metrics] *)
Definition push_metrics : M unit :=
  s <- get_self ;;
  let series_request_name := common_project_path (project_id s) in
  counter_series <- list_comp (counters s) counter_series_item ;;
  s <- get_self ;;
  gauge_series <- list_comp (gauges s) gauge_series_item ;;
  let series_request :=
    {| name := series_request_name;
       time_series := counter_series ++ gauge_series |} in
  try_except_GoogleAPIError
    (client_create_time_series series_request)
    (fun e => raise e) ;;
  modify_self (set_counters []) ;;
  modify_self (set_gauges []).

(** One step of another task. *)
Definition perform (a : Action AppState) : M unit :=
  match a with
  | ActIncrement metric_name => increment metric_name
  | ActGauge metric_name fn => gauge metric_name fn ;; ret tt
  | ActSetApp a => modify_world (set_app_state a)
  end.

(** [await asyncio.sleep(secs)]: the loop is suspended and the other
    tasks run. *)
Definition sleep (secs : Z) : M unit :=
  modify_world (log (EvSleep secs)) ;;
  w <- get_world ;;
  modify_world tick_sleep ;;
  for_each (other_tasks env (sleep_calls w)) perform.

(** The body of the [while True] of [Metrics.run]. *)
Definition run_cycle : M unit :=
  sleep MIN_GRANULARITY_SECS ;;
  query_gauges ;;
  s <- get_self ;;
  if (0 <? len (counters s))%nat || (0 <? len (gauges s))%nat
  then push_metrics
  else ret tt.

(** [Metrics.run], cut after [cycles] iterations: [Returns tt] says that
    the loop is still running then, [Raises e] that it has ended with [e]. *)
Fixpoint run (cycles : nat) : M unit :=
  match cycles with
  | O => ret tt
  | S k => run_cycle ;; run k
  end.

End Operations.

(** [init()]: builds the process-wide uploader once. *)
Definition init {AppState : Type} (default_namespace : string)
    (metrics_uploader : option (Metrics AppState)) : option (Metrics AppState) :=
  let resource_data :=
    {| resource_type := RESOURCE_TYPE;
       cluster_name := CLUSTER_NAME;
       namespace_name := default_namespace;
       location := "us-central1-a";
       container_name := "ci";
       pod_name := "ci" |} in
  match metrics_uploader with
  | None => Some (Metrics_init PROJECT_ID resource_data)
  | Some m => Some m
  end.

(** ** The module-level functions, on the global [metrics_uploader] *)

Module Toplevel.

Section Global.

Context {AppState : Type}.
Variable env : Env AppState.

(** The module's global and the world around it. *)
Record Process : Type := mkProcess {
  metrics_uploader : option (Metrics AppState);
  outside : World AppState
}.

Definition G (A : Type) : Type := Process -> outcome A * Process.

(** What the access of attribute [attr] on [None] raises. *)
Definition AttributeError (attr : string) : exn :=
  Exception ("AttributeError: 'NoneType' object has no attribute '" ++ attr ++ "'").

(** [metrics_uploader.attr ...]: the computation [c] on the object that the
    global holds, an [AttributeError] while the global is [None]. *)
Definition on_uploader {A : Type} (attr : string) (c : M A) : G A :=
  fun p =>
    match metrics_uploader p with
    | None => (Raises (AttributeError attr), p)
    | Some m =>
        let (r, st) := c {| self := m; world := outside p |} in
        (r, {| metrics_uploader := Some (self st); outside := world st |})
    end.

(** [init()], with the namespace that [deploy_config] gives. *)
Definition init (default_namespace : string) : G unit :=
  fun p =>
    (Returns tt,
     {| metrics_uploader := init default_namespace (metrics_uploader p);
        outside := outside p |}).

(** [update_loop()], the loop cut after [cycles] iterations. *)
Definition update_loop (cycles : nat) : G unit :=
  on_uploader "run" (run env cycles).

(** A call of the function that [count(metric_name)] wraps around [fn]. *)
Definition count {A : Type} (metric_name : string) (fn : G A) : G A :=
  fun p =>
    match on_uploader "increment" (increment env metric_name) p with
    | (Returns _, p') => fn p'
    | (Raises e, p') => (Raises e, p')
    end.

(** [gauge(metric_name)(fn)], as the decorator runs at definition time. *)
Definition gauge (metric_name : string) (fn : Callable AppState)
  : G (Callable AppState) :=
  on_uploader "gauge_callbacks" (gauge metric_name fn).

End Global.

Arguments Process : clear implicits.

End Toplevel.

(** ** Concrete processes, for the runs evaluated below *)

Module Scenario.

(** The process state read by the gauges: a queue length. *)
Definition App : Type := Z.

Definition resource_data0 : ResourceData :=
  {| resource_type := RESOURCE_TYPE;
     cluster_name := CLUSTER_NAME;
     namespace_name := "default";
     location := "us-central1-a";
     container_name := "ci";
     pod_name := "ci" |}.

Definition metrics0 : Metrics App := Metrics_init PROJECT_ID resource_data0.

Definition world0 : World App :=
  {| app_state := 0%Z; now_calls := 0; sink_calls := 0; sleep_calls := 0;
     trace := [] |}.

Definition state0 : State App := {| self := metrics0; world := world0 |}.

(** A clock that advances by one second per reading. *)
Definition clock0 (n : nat) : Z := (1700000000000000 + 1000000 * Z.of_nat n)%Z.

(** A backend that accepts every request, and no other task. *)
Definition env_quiet : Env App :=
  {| clock := clock0;
     create_time_series := fun _ _ => None;
     other_tasks := fun _ => [] |}.

(** A backend that rejects every request. *)
Definition env_down (tasks : nat -> list (Action App)) : Env App :=
  {| clock := clock0;
     create_time_series := fun _ _ => Some (GoogleAPIError "503 unavailable");
     other_tasks := tasks |}.

(** The only other task increments counter "a" once, during the first
    sleep of the loop. *)
Definition one_increment (n : nat) : list (Action App) :=
  match n with
  | O => [ActIncrement "a"]
  | S _ => []
  end.

Definition gauge_old : Callable App := fun _ => Returns 1%float.

Definition gauge_depth : Callable App := fun _ => Returns 7.5%float.

Definition gauge_broken : Callable App :=
  fun _ => Raises (Exception "division by zero").

(** Counter "c" incremented five times. *)
Definition state_five : State App :=
  snd ((increment env_quiet "c" ;; increment env_quiet "c" ;;
        increment env_quiet "c" ;; increment env_quiet "c" ;;
        increment env_quiet "c")%py state0).

(** One registered gauge. *)
Definition state_gauge : State App :=
  {| self := set_gauge_callbacks [("g", gauge_depth)] metrics0;
     world := world0 |}.

(** Three registered gauges, the second of which raises. *)
Definition state_three_gauges : State App :=
  {| self :=
       set_gauge_callbacks
         [("ok", gauge_old); ("bad", gauge_broken); ("late", gauge_depth)]
         metrics0;
     world := world0 |}.

(** Counter "a" and gauge "b" pending, as left by one increment and one
    sampling. *)
Definition state_pending : State App :=
  {| self :=
       {| project_id := PROJECT_ID;
          resource_data := resource_data0;
          counters :=
            [("a", {| interval := {| start_time := Some (clock0 0); end_time := None |};
                      value := {| double_value := 1%float |} |})];
          gauges :=
            [("b", {| interval := {| start_time := None; end_time := None |};
                      value := {| double_value := 7.5%float |} |})];
          gauge_callbacks := [("b", gauge_depth)] |};
     world :=
       {| app_state := 0%Z; now_calls := 1; sink_calls := 0; sleep_calls := 1;
          trace := [EvSleep 60; EvGaugeCall "b" gauge_depth] |} |}.

End Scenario.

(** ** Vocabulary of the statements *)

(** The monitored resource that [rd] describes. *)
Definition resource_tag (rd : ResourceData) : MonitoredResource :=
  {| type := resource_type rd;
     labels := [("cluster_name", cluster_name rd);
                ("namespace_name", namespace_name rd);
                ("location", location rd);
                ("container_name", container_name rd);
                ("pod_name", pod_name rd)] |}.

(** A Point whose [start_time] was never assigned. *)
Definition unstarted (item : string * Point) : Prop :=
  start_time (interval (snd item)) = None.

(** The record that a flush builds for the entry [(metric_name, point)] when
    the clock reads [t]. *)
Definition series_of (rd : ResourceData) (kind : MetricKind)
    (metric_name : string) (point : Point) (t : Z) : TimeSeries :=
  {| metric_type := METRIC_BASE ++ "/" ++ metric_name;
     metric_kind := kind;
     resource := resource_tag rd;
     points := [set_end_time t point] |}.

(** The records for the entries of [d] in order, one clock reading each,
    starting with the [k]-th. *)
Fixpoint series_from (rd : ResourceData) (kind : MetricKind) (clock : nat -> Z)
    (k : nat) (d : dict Point) : list TimeSeries :=
  match d with
  | [] => []
  | (metric_name, point) :: d' =>
      series_of rd kind metric_name point (clock k)
        :: series_from rd kind clock (S k) d'
  end.

(** The entries of [d] with their [end_time] assigned in the same way. *)
Fixpoint stamp_from (clock : nat -> Z) (k : nat) (d : dict Point) : dict Point :=
  match d with
  | [] => []
  | (metric_name, point) :: d' =>
      (metric_name, set_end_time (clock k) point) :: stamp_from clock (S k) d'
  end.

(** The same assignments made through the keys of [d] on a dictionary [acc]. *)
Fixpoint write_back (clock : nat -> Z) (k : nat) (d acc : dict Point)
  : dict Point :=
  match d with
  | [] => acc
  | (metric_name, point) :: d' =>
      write_back clock (S k) d'
        (PyDict.set metric_name (set_end_time (clock k) point) acc)
  end.

(** A Point after one [increment] at time [t]. *)
Definition incremented (t : Z) (point : Point) : Point :=
  set_start_time t (set_double_value (double_value (value point) + 1)%float point).

(** The Point bound to a key of a [defaultdict] of Points. *)
Definition point_at (metric_name : string) (d : dict Point) : Point :=
  match get metric_name d with
  | Some point => point
  | None => Point_new
  end.

(** What a Point says apart from its [end_time]. *)
Definition accumulated (item : string * Point) : string * float * option Z :=
  (fst item, double_value (value (snd item)), start_time (interval (snd item))).

(** The metric type under which a name is reported. *)
Definition metric_type_of (metric_name : string) : string :=
  METRIC_BASE ++ "/" ++ metric_name.

Section Vocabulary.

Context {AppState : Type}.

(** The requests handed to the backend, oldest first. *)
Fixpoint submissions (tr : list (Event AppState))
  : list CreateTimeSeriesRequest :=
  match tr with
  | [] => []
  | EvCreateTimeSeries request :: tr' => request :: submissions tr'
  | _ :: tr' => submissions tr'
  end.

(** How many times the loop went to sleep. *)
Fixpoint sleeps (tr : list (Event AppState)) : nat :=
  match tr with
  | [] => 0
  | EvSleep _ :: tr' => S (sleeps tr')
  | _ :: tr' => sleeps tr'
  end.

(** The gauge functions called for [metric_name], oldest first. *)
Fixpoint gauge_calls (metric_name : string) (tr : list (Event AppState))
  : list (Callable AppState) :=
  match tr with
  | [] => []
  | EvGaugeCall n f :: tr' =>
      if String.eqb n metric_name
      then f :: gauge_calls metric_name tr'
      else gauge_calls metric_name tr'
  | _ :: tr' => gauge_calls metric_name tr'
  end.

(** [n] more readings of the clock. *)
Definition advance_now (n : nat) (w : World AppState) : World AppState :=
  {| app_state := app_state w;
     now_calls := now_calls w + n;
     sink_calls := sink_calls w;
     sleep_calls := sleep_calls w;
     trace := trace w |}.

(** The request that a flush of [m] builds when its first clock reading is
    the [k]-th. *)
Definition flush_request (clock : nat -> Z) (k : nat) (m : Metrics AppState)
  : CreateTimeSeriesRequest :=
  {| name := common_project_path (project_id m);
     time_series :=
       series_from (resource_data m) CUMULATIVE clock k (counters m)
       ++ series_from (resource_data m) GAUGE clock
            (k + length (counters m)) (gauges m) |}.

(** The object once the flush has built its request: every pending Point
    has had its [end_time] assigned. *)
Definition stamped (clock : nat -> Z) (k : nat) (m : Metrics AppState)
  : Metrics AppState :=
  set_gauges
    (write_back clock (k + length (counters m)) (gauges m) (gauges m))
    (set_counters (write_back clock k (counters m) (counters m)) m).

(** The object with two new, empty dictionaries. *)
Definition cleared (m : Metrics AppState) : Metrics AppState :=
  set_gauges [] (set_counters [] m).

(** The world after the [k]-th call of the backend with [request], made
    after [n] readings of the clock. *)
Definition after_submit (n : nat) (request : CreateTimeSeriesRequest)
    (w : World AppState) : World AppState :=
  {| app_state := app_state w;
     now_calls := now_calls w + n;
     sink_calls := S (sink_calls w);
     sleep_calls := sleep_calls w;
     trace := trace w ++ [EvCreateTimeSeries request] |}.

(** The gauge dictionary after the functions of [cbs] have been called in
    order on process state [a], up to the first that raises. *)
Fixpoint sampled (a : AppState) (cbs : dict (Callable AppState))
    (g : dict Point) : dict Point :=
  match cbs with
  | [] => g
  | (metric_name, gauge_f) :: cbs' =>
      match gauge_f a with
      | Returns x =>
          sampled a cbs'
            (PyDict.set metric_name
               (set_double_value x (point_at metric_name g)) g)
      | Raises _ => g
      end
  end.

(** The exception of the first function of [cbs] that raises. *)
Fixpoint first_failure (a : AppState) (cbs : dict (Callable AppState))
  : option exn :=
  match cbs with
  | [] => None
  | (_, gauge_f) :: cbs' =>
      match gauge_f a with
      | Returns _ => first_failure a cbs'
      | Raises e => Some e
      end
  end.

(** The entries of [cbs] whose function gets called: all up to and
    including the first that raises. *)
Fixpoint called (a : AppState) (cbs : dict (Callable AppState))
  : dict (Callable AppState) :=
  match cbs with
  | [] => []
  | (metric_name, gauge_f) :: cbs' =>
      match gauge_f a with
      | Returns _ => (metric_name, gauge_f) :: called a cbs'
      | Raises _ => [(metric_name, gauge_f)]
      end
  end.

Definition log_all (evs : list (Event AppState)) (w : World AppState)
  : World AppState :=
  {| app_state := app_state w;
     now_calls := now_calls w;
     sink_calls := sink_calls w;
     sleep_calls := sleep_calls w;
     trace := trace w ++ evs |}.

Definition outcome_of (failure : option exn) : outcome unit :=
  match failure with
  | None => Returns tt
  | Some e => Raises e
  end.

(** The test of [Metrics.run]: something is there to upload. *)
Definition pending (m : Metrics AppState) : bool :=
  (0 <? len (counters m))%nat || (0 <? len (gauges m))%nat.

(** No pending gauge Point has a [start_time]. *)
Definition gauges_unstarted (m : Metrics AppState) : Prop :=
  Forall unstarted (gauges m).

(** The dictionaries of the object are dictionaries. *)
Definition Metrics_wf (m : Metrics AppState) : Prop :=
  wf (counters m) /\ wf (gauges m) /\ wf (gauge_callbacks m).

(** The trace entry of the call of [item]'s gauge function. *)
Definition gauge_call_event (item : string * Callable AppState)
  : Event AppState :=
  EvGaugeCall (fst item) (snd item).




(** The value of the one Point of a record. *)
Definition single_point (series : TimeSeries) : option Point :=
  match points series with
  | [point] => Some point
  | _ => None
  end.

End Vocabulary.

(** * Facts *)

(** ** Dictionaries *)

Module PyDictFacts.

Section Facts.
Context {V : Type}.
Implicit Types (d : dict V) (k : string) (v : V).

Lemma get_set_same d k v : get k (set k v d) = Some v.
Proof.
  induction d as [|[k' v'] d IH]; simpl.
  - now rewrite String.eqb_refl.
  - destruct (String.eqb k' k) eqn:E; simpl; rewrite E; auto.
Qed.

Lemma get_set_other d k k' v : k <> k' -> get k' (set k v d) = get k' d.
Proof.
  intros Hne. induction d as [|[k0 v0] d IH]; simpl.
  - destruct (String.eqb_spec k k'); congruence.
  - destruct (String.eqb_spec k0 k) as [->|Hk]; simpl.
    + destruct (String.eqb_spec k k'); congruence.
    + destruct (String.eqb_spec k0 k'); auto.
Qed.

Lemma set_set_same d k v1 v2 : set k v2 (set k v1 d) = set k v2 d.
Proof.
  induction d as [|[k' v'] d IH]; simpl.
  - now rewrite String.eqb_refl.
  - destruct (String.eqb k' k) eqn:E; simpl; rewrite E; congruence.
Qed.

Lemma get_None_keys d k : get k d = None <-> ~ In k (keys d).
Proof.
  induction d as [|[k' v'] d IH]; simpl.
  - tauto.
  - destruct (String.eqb_spec k' k) as [->|Hk].
    + split; [discriminate | tauto].
    + rewrite IH. tauto.
Qed.

Lemma get_Some_keys d k v : get k d = Some v -> In k (keys d).
Proof.
  intros H. destruct (in_dec string_dec k (keys d)) as [Hin|Hin]; auto.
  apply get_None_keys in Hin. congruence.
Qed.

Lemma keys_set_present d k v : In k (keys d) -> keys (set k v d) = keys d.
Proof.
  induction d as [|[k' v'] d IH]; simpl; [tauto|].
  intros [->|Hin].
  - now rewrite String.eqb_refl.
  - destruct (String.eqb k' k); simpl; auto. f_equal. auto.
Qed.

Lemma set_absent d k v : ~ In k (keys d) -> set k v d = d ++ [(k, v)].
Proof.
  induction d as [|[k' v'] d IH]; simpl; auto.
  intros Hn. destruct (String.eqb_spec k' k) as [->|Hk]; [tauto|].
  f_equal. apply IH. tauto.
Qed.

Lemma keys_set d k v :
  keys (set k v d) = if in_dec string_dec k (keys d) then keys d else keys d ++ [k].
Proof.
  destruct (in_dec string_dec k (keys d)) as [Hin|Hin].
  - now apply keys_set_present.
  - rewrite set_absent by assumption. unfold keys. now rewrite map_app.
Qed.

Lemma in_keys_set d k k' v : In k' (keys (set k v d)) <-> k' = k \/ In k' (keys d).
Proof.
  rewrite keys_set. destruct (in_dec string_dec k (keys d)) as [Hin|Hin].
  - split; [tauto|]. intros [->|]; auto.
  - rewrite in_app_iff. simpl. intuition congruence.
Qed.

Lemma wf_set d k v : wf d -> wf (set k v d).
Proof.
  unfold wf. rewrite keys_set.
  destruct (in_dec string_dec k (keys d)) as [Hin|Hin]; auto.
  intros Hd. apply NoDup_app; auto.
  - constructor; [simpl; tauto | constructor].
  - intros x Hx [<-|[]]. contradiction.
Qed.

(** With the key first met at a known place, the assignment is made
    there. *)
Lemma set_middle (pre post : dict V) k v0 v :
  ~ In k (keys pre) -> set k v (pre ++ (k, v0) :: post) = pre ++ (k, v) :: post.
Proof.
  induction pre as [|[k' v'] pre IH]; simpl.
  - now rewrite String.eqb_refl.
  - intros Hn. destruct (String.eqb_spec k' k) as [->|Hk]; [tauto|].
    f_equal. apply IH. tauto.
Qed.

Lemma getitem_default_get factory k d :
  get k (snd (getitem_default factory k d)) = Some (fst (getitem_default factory k d)).
Proof.
  unfold getitem_default. destruct (get k d) eqn:E; simpl; auto.
  apply get_set_same.
Qed.

End Facts.

End PyDictFacts.

Import PyDictFacts.

(** ** Computations *)

Section MonadFacts.

Context {AppState : Type}.
Implicit Types (st : State AppState).

Lemma bind_Returns {A B : Type} (c : M A) (k : A -> M B) st a st1 :
  c st = (Returns a, st1) -> bind c k st = k a st1.
Proof. intros H. unfold bind. now rewrite H. Qed.

Lemma bind_Raises {A B : Type} (c : M A) (k : A -> M B) st e st1 :
  c st = (Raises e, st1) -> bind c k st = (Raises e, st1).
Proof. intros H. unfold bind. now rewrite H. Qed.

Lemma bind_Returns_inv {A B : Type} (c : M A) (k : A -> M B) st b st2 :
  bind c k st = (Returns b, st2) ->
  exists a st1, c st = (Returns a, st1) /\ k a st1 = (Returns b, st2).
Proof.
  unfold bind. destruct (c st) as [[a|e] st1]; intros H.
  - now exists a, st1.
  - discriminate.
Qed.

Lemma state_eta st : {| self := self st; world := world st |} = st.
Proof. now destruct st. Qed.

Lemma set_counters_same (m : Metrics AppState) : set_counters (counters m) m = m.
Proof. now destruct m. Qed.

Lemma set_gauges_same (m : Metrics AppState) : set_gauges (gauges m) m = m.
Proof. now destruct m. Qed.

Lemma advance_now_0 (w : World AppState) : advance_now 0 w = w.
Proof. destruct w. unfold advance_now. simpl. now rewrite Nat.add_0_r. Qed.

Lemma advance_now_tick n (w : World AppState) :
  advance_now n (tick_now w) = advance_now (S n) w.
Proof. unfold advance_now, tick_now. simpl. f_equal. lia. Qed.

Lemma advance_now_add n m (w : World AppState) :
  advance_now m (advance_now n w) = advance_now (n + m) w.
Proof. unfold advance_now. simpl. f_equal. lia. Qed.

End MonadFacts.

(** Unfolds the plumbing of a computation. *)
Ltac unfold_m :=
  unfold bind, ret, raise, get_self, modify_self, get_world, modify_world in *.

(** ** What each operation does *)

Section OperationFacts.

Context {AppState : Type}.
Variable env : Env AppState.
Implicit Types (st : State AppState) (d : dict Point).

Lemma point_at_getitem metric_name d :
  getitem_default Point_new metric_name d
  = (point_at metric_name d,
     match get metric_name d with
     | Some _ => d
     | None => PyDict.set metric_name Point_new d
     end).
Proof. unfold getitem_default, point_at. now destruct (get metric_name d). Qed.

(** [increment] always returns; the entry of the name is its former Point,
    or a new one, incremented and stamped with the current reading. *)
Lemma increment_spec metric_name st :
  increment env metric_name st
  = (Returns tt,
     {| self :=
          set_counters
            (PyDict.set metric_name
               (incremented (clock env (now_calls (world st)))
                  (point_at metric_name (counters (self st))))
               (counters (self st)))
            (self st);
        world := tick_now (world st) |}).
Proof.
  unfold increment, counters_getitem, counters_mutate, now. unfold_m.
  rewrite point_at_getitem. simpl.
  set (d1 := match get metric_name (counters (self st)) with
             | Some _ => counters (self st)
             | None => PyDict.set metric_name Point_new (counters (self st))
             end).
  assert (Hd1 : forall p, PyDict.set metric_name p d1
                          = PyDict.set metric_name p (counters (self st))).
  { intros p. unfold d1. destruct (get metric_name (counters (self st))); auto.
    apply set_set_same. }
  rewrite point_at_getitem. simpl. rewrite get_set_same. simpl.
  unfold point_at at 1. rewrite get_set_same. rewrite set_set_same.
  rewrite Hd1. reflexivity.
Qed.

Lemma make_time_series_spec metric_name point kind st :
  make_time_series env metric_name point kind st
  = (Returns
       (series_of (resource_data (self st)) kind metric_name point
          (clock env (now_calls (world st))),
        set_end_time (clock env (now_calls (world st))) point),
     {| self := self st; world := tick_now (world st) |}).
Proof. reflexivity. Qed.

Lemma list_comp_counters d st :
  list_comp d (counter_series_item env) st
  = (Returns
       (series_from (resource_data (self st)) CUMULATIVE (clock env)
          (now_calls (world st)) d),
     {| self :=
          set_counters
            (write_back (clock env) (now_calls (world st)) d (counters (self st)))
            (self st);
        world := advance_now (length d) (world st) |}).
Proof.
  revert st. induction d as [|[n p] d IH]; intros st.
  - simpl. unfold ret. rewrite advance_now_0, set_counters_same.
    now rewrite state_eta.
  - simpl. unfold counter_series_item at 1.
    unfold bind at 1. unfold bind at 1. rewrite make_time_series_spec.
    unfold counters_mutate. unfold_m. rewrite IH. simpl.
    now rewrite advance_now_tick.
Qed.

Lemma list_comp_gauges d st :
  list_comp d (gauge_series_item env) st
  = (Returns
       (series_from (resource_data (self st)) GAUGE (clock env)
          (now_calls (world st)) d),
     {| self :=
          set_gauges
            (write_back (clock env) (now_calls (world st)) d (gauges (self st)))
            (self st);
        world := advance_now (length d) (world st) |}).
Proof.
  revert st. induction d as [|[n p] d IH]; intros st.
  - simpl. unfold ret. rewrite advance_now_0, set_gauges_same.
    now rewrite state_eta.
  - simpl. unfold gauge_series_item at 1.
    unfold bind at 1. unfold bind at 1. rewrite make_time_series_spec.
    unfold gauges_mutate. unfold_m. rewrite IH. simpl.
    now rewrite advance_now_tick.
Qed.

End OperationFacts.

Section FlushFacts.

Context {AppState : Type}.
Variable env : Env AppState.
Implicit Types (st : State AppState) (d : dict Point).

(** On a dictionary, assigning through the keys is assigning in place. *)
Lemma write_back_in_place clock d : forall k (pre : dict Point),
  wf (pre ++ d) ->
  write_back clock k d (pre ++ d) = pre ++ stamp_from clock k d.
Proof.
  induction d as [|[n p] d IH]; intros k pre Hwf; simpl.
  - reflexivity.
  - assert (Hn : ~ In n (keys pre)).
    { unfold wf, keys in Hwf. rewrite map_app in Hwf. simpl in Hwf.
      apply NoDup_remove_2 in Hwf. rewrite in_app_iff in Hwf.
      unfold keys. tauto. }
    rewrite set_middle by assumption.
    replace (pre ++ (n, set_end_time (clock k) p) :: d)
      with ((pre ++ [(n, set_end_time (clock k) p)]) ++ d)
      by now rewrite <- app_assoc.
    rewrite IH.
    + now rewrite <- app_assoc.
    + unfold wf, keys in *. rewrite !map_app in *. simpl in *.
      now rewrite <- app_assoc.
Qed.

Lemma write_back_wf clock k d :
  wf d -> write_back clock k d d = stamp_from clock k d.
Proof. intros H. apply (write_back_in_place clock d k []). exact H. Qed.

Lemma accumulated_stamp_from clock d : forall k,
  map accumulated (stamp_from clock k d) = map accumulated d.
Proof. induction d as [|[n p] d IH]; intros k; simpl; [|rewrite IH]; reflexivity. Qed.

Lemma length_stamp_from clock d : forall k, length (stamp_from clock k d) = length d.
Proof. induction d as [|[n p] d IH]; intros k; simpl; auto. Qed.

(** [push_metrics] builds one request from the pending entries, hands it
    to the backend, and clears the two dictionaries only if that call
    returns. *)
Lemma push_metrics_spec st :
  push_metrics env st
  = let k := now_calls (world st) in
    let request := flush_request (clock env) k (self st) in
    let w :=
      after_submit (length (counters (self st)) + length (gauges (self st)))
        request (world st) in
    match create_time_series env (sink_calls (world st)) request with
    | None => (Returns tt, {| self := cleared (self st); world := w |})
    | Some e => (Raises e, {| self := stamped (clock env) k (self st); world := w |})
    end.
Proof.
  unfold push_metrics. unfold bind at 1. unfold get_self at 1.
  unfold bind at 1. rewrite list_comp_counters.
  unfold bind at 1. unfold get_self at 1.
  unfold bind at 1. rewrite list_comp_gauges.
  unfold try_except_GoogleAPIError, client_create_time_series.
  unfold_m. simpl.
  unfold flush_request, after_submit, stamped, cleared. simpl.
  rewrite advance_now_add.
  destruct (create_time_series env (sink_calls (world st)) _) as [[msg|msg]|];
    reflexivity.
Qed.

End FlushFacts.

Section SamplingFacts.

Context {AppState : Type}.
Implicit Types (st : State AppState) (g : dict Point)
  (cbs : dict (Callable AppState)) (a : AppState).

Lemma log_all_nil (w : World AppState) : log_all [] w = w.
Proof. destruct w. unfold log_all. simpl. now rewrite app_nil_r. Qed.

Lemma log_all_log ev evs (w : World AppState) :
  log_all evs (log ev w) = log_all (ev :: evs) w.
Proof. unfold log_all, log. simpl. now rewrite <- app_assoc. Qed.

Lemma query_gauges_body_spec metric_name gauge_f st :
  query_gauges_body (metric_name, gauge_f) st
  = match gauge_f (app_state (world st)) with
    | Returns x =>
        (Returns tt,
         {| self :=
              set_gauges
                (PyDict.set metric_name
                   (set_double_value x (point_at metric_name (gauges (self st))))
                   (gauges (self st)))
                (self st);
            world := log (EvGaugeCall metric_name gauge_f) (world st) |})
    | Raises e =>
        (Raises e,
         {| self := self st;
            world := log (EvGaugeCall metric_name gauge_f) (world st) |})
    end.
Proof.
  unfold query_gauges_body, call_gauge, gauges_getitem, gauges_mutate.
  unfold_m. simpl.
  destruct (gauge_f (app_state (world st))) as [x|e]; [|reflexivity].
  rewrite point_at_getitem. simpl.
  destruct (get metric_name (gauges (self st))); [reflexivity|].
  now rewrite set_set_same.
Qed.

Lemma for_each_query_gauges_body cbs : forall st,
  for_each cbs query_gauges_body st
  = (outcome_of (first_failure (app_state (world st)) cbs),
     {| self :=
          set_gauges
            (sampled (app_state (world st)) cbs (gauges (self st))) (self st);
        world := log_all (map gauge_call_event (called (app_state (world st)) cbs))
                   (world st) |}).
Proof.
  induction cbs as [|[n f] cbs IH]; intros st; cbn [for_each].
  - simpl. unfold ret. now rewrite log_all_nil, set_gauges_same, state_eta.
  - unfold bind. rewrite query_gauges_body_spec. cbn [first_failure sampled called].
    destruct (f (app_state (world st))) as [x|e]; simpl.
    + rewrite IH. simpl. now rewrite log_all_log.
    + now rewrite set_gauges_same.
Qed.

(** [query_gauges] calls the registered functions in order until one
    raises, and binds each returned number to the function's name. *)
Lemma query_gauges_spec st :
  query_gauges st
  = (outcome_of (first_failure (app_state (world st)) (gauge_callbacks (self st))),
     {| self :=
          set_gauges
            (sampled (app_state (world st)) (gauge_callbacks (self st))
               (gauges (self st)))
            (self st);
        world :=
          log_all
            (map gauge_call_event
               (called (app_state (world st)) (gauge_callbacks (self st))))
            (world st) |}).
Proof.
  unfold query_gauges. unfold bind, get_self.
  apply for_each_query_gauges_body.
Qed.

(** *** The pure sampling functions *)

Lemma sampled_get_other a cbs : forall g k,
  ~ In k (keys cbs) -> get k (sampled a cbs g) = get k g.
Proof.
  induction cbs as [|[n f] cbs IH]; intros g k Hk; simpl; auto.
  simpl in Hk. destruct (f a) as [x|e]; auto.
  rewrite IH by tauto. apply get_set_other. intros ->. tauto.
Qed.

Lemma sampled_prefix a pre metric_name gauge_f post e g :
  Forall (fun item => exists x, snd item a = Returns x) pre ->
  gauge_f a = Raises e ->
  sampled a (pre ++ (metric_name, gauge_f) :: post) g = sampled a pre g
  /\ first_failure a (pre ++ (metric_name, gauge_f) :: post) = Some e
  /\ first_failure a pre = None
  /\ called a (pre ++ (metric_name, gauge_f) :: post)
     = pre ++ [(metric_name, gauge_f)]
  /\ called a pre = pre.
Proof.
  intros Hpre Hf. revert g.
  induction Hpre as [|[n f] pre [x Hx] _ IH]; intros g; simpl in *.
  - rewrite Hf. auto.
  - rewrite Hx. destruct (IH (PyDict.set n (set_double_value x (point_at n g)) g))
      as (H1 & H2 & H3 & H4 & H5).
    rewrite H1, H2, H3, H4, H5. auto.
Qed.

Lemma called_all a cbs : first_failure a cbs = None -> called a cbs = cbs.
Proof.
  induction cbs as [|[n f] cbs IH]; simpl; auto.
  destruct (f a); [|discriminate]. intros H. f_equal. auto.
Qed.

Lemma length_set {V : Type} (d : dict V) k v : (0 < length (PyDict.set k v d))%nat.
Proof. destruct d as [|[k' v'] d]; simpl; [lia|]. destruct (String.eqb k' k); simpl; lia. Qed.

Lemma length_set_le {V : Type} (d : dict V) k v :
  (length d <= length (PyDict.set k v d))%nat.
Proof.
  induction d as [|[k' v'] d IH]; simpl; [lia|].
  destruct (String.eqb k' k); simpl; lia.
Qed.

Lemma length_sampled a cbs : forall g, (length g <= length (sampled a cbs g))%nat.
Proof.
  induction cbs as [|[n f] cbs IH]; intros g; simpl; auto.
  destruct (f a) as [x|e]; auto.
  etransitivity; [|apply IH]. apply length_set_le.
Qed.

(** A sampling that returns and leaves no gauge had no function to call. *)
Lemma sampled_empty a cbs g :
  first_failure a cbs = None -> sampled a cbs g = [] -> cbs = [].
Proof.
  destruct cbs as [|[n f] cbs]; simpl; auto.
  destruct (f a) as [x|e]; [|discriminate].
  intros _ H. exfalso.
  pose proof (length_sampled a cbs (PyDict.set n (set_double_value x (point_at n g)) g)) as Hl.
  pose proof (length_set g n (set_double_value x (point_at n g))).
  rewrite H in Hl. simpl in Hl. lia.
Qed.

(** Under a name of a dictionary of functions that all return, the
    sampled value is that of the function bound to the name. *)
Lemma sampled_get a cbs : forall g k gauge_f,
  wf cbs -> first_failure a cbs = None -> get k cbs = Some gauge_f ->
  exists x point,
    gauge_f a = Returns x
    /\ get k (sampled a cbs g) = Some point
    /\ double_value (value point) = x.
Proof.
  induction cbs as [|[n f] cbs IH]; intros g k gauge_f Hwf Hok Hget; simpl in *.
  - discriminate.
  - unfold wf in Hwf. simpl in Hwf. inversion Hwf as [|? ? Hn Hwf']; subst.
    destruct (f a) as [x|e] eqn:Hfa; [|discriminate].
    destruct (String.eqb_spec n k) as [->|Hne].
    + injection Hget as <-. exists x. eexists. split; [assumption|].
      rewrite sampled_get_other by assumption.
      rewrite get_set_same. split; reflexivity.
    + now apply IH.
Qed.

Lemma gauge_calls_app k (tr1 tr2 : list (Event AppState)) :
  gauge_calls k (tr1 ++ tr2) = gauge_calls k tr1 ++ gauge_calls k tr2.
Proof.
  induction tr1 as [|[secs|n f|r] tr1 IH]; simpl; auto.
  destruct (String.eqb n k); simpl; now rewrite IH.
Qed.

Lemma gauge_calls_absent k cbs :
  ~ In k (keys cbs) -> gauge_calls k (map gauge_call_event cbs) = [].
Proof.
  induction cbs as [|[n f] cbs IH]; simpl; auto.
  intros Hk. destruct (String.eqb_spec n k) as [->|Hne]; [tauto|].
  apply IH. tauto.
Qed.

Lemma gauge_calls_present k cbs gauge_f :
  wf cbs -> get k cbs = Some gauge_f ->
  gauge_calls k (map gauge_call_event cbs) = [gauge_f].
Proof.
  induction cbs as [|[n f] cbs IH]; simpl; [discriminate|].
  intros Hwf Hget. unfold wf in Hwf. simpl in Hwf.
  inversion Hwf as [|? ? Hn Hwf']; subst.
  destruct (String.eqb_spec n k) as [->|Hne].
  - injection Hget as <-. f_equal. now apply gauge_calls_absent.
  - now apply IH.
Qed.

End SamplingFacts.

(** ** The trace *)

Section TraceFacts.

Context {AppState : Type}.
Implicit Types (tr : list (Event AppState)).

Lemma submissions_app tr1 tr2 :
  submissions (tr1 ++ tr2) = submissions tr1 ++ submissions tr2.
Proof.
  induction tr1 as [|[secs|n f|r] tr1 IH]; simpl; auto. now rewrite IH.
Qed.

Lemma sleeps_app tr1 tr2 : sleeps (tr1 ++ tr2) = sleeps tr1 + sleeps tr2.
Proof.
  induction tr1 as [|[secs|n f|r] tr1 IH]; simpl; auto.
Qed.

Lemma submissions_gauge_calls (cbs : dict (Callable AppState)) :
  submissions (map gauge_call_event cbs) = [].
Proof. induction cbs as [|[n f] cbs IH]; simpl; auto. Qed.

Lemma sleeps_gauge_calls (cbs : dict (Callable AppState)) :
  sleeps (map gauge_call_event cbs) = 0.
Proof. induction cbs as [|[n f] cbs IH]; simpl; auto. Qed.

End TraceFacts.

(** ** The loop *)

Section LoopFacts.

Context {AppState : Type}.
Variable env : Env AppState.
Implicit Types (st : State AppState).

(** Another task's step returns and leaves the trace and the backend
    alone. *)
Lemma perform_spec (a : Action AppState) st :
  exists st',
    perform env a st = (Returns tt, st')
    /\ trace (world st') = trace (world st)
    /\ sink_calls (world st') = sink_calls (world st)
    /\ sleep_calls (world st') = sleep_calls (world st).
Proof.
  destruct a as [n|n f|a]; simpl.
  - rewrite increment_spec. eexists. split; [reflexivity|]. simpl. auto.
  - eexists. split; [reflexivity|]. simpl. auto.
  - eexists. split; [reflexivity|]. simpl. auto.
Qed.

Lemma for_each_perform (l : list (Action AppState)) : forall st,
  exists st',
    for_each l (perform env) st = (Returns tt, st')
    /\ trace (world st') = trace (world st)
    /\ sink_calls (world st') = sink_calls (world st)
    /\ sleep_calls (world st') = sleep_calls (world st).
Proof.
  induction l as [|a l IH]; intros st; cbn [for_each].
  - exists st. auto.
  - destruct (perform_spec a st) as (st1 & H1 & Ht1 & Hs1 & Hc1).
    destruct (IH st1) as (st2 & H2 & Ht2 & Hs2 & Hc2).
    exists st2. rewrite (bind_Returns _ _ _ _ _ H1). repeat split; congruence.
Qed.

(** [asyncio.sleep] returns; the trace gains the sleep and nothing else. *)
Lemma sleep_spec secs st :
  exists st',
    sleep env secs st = (Returns tt, st')
    /\ trace (world st') = trace (world st) ++ [EvSleep secs]
    /\ sink_calls (world st') = sink_calls (world st)
    /\ sleep_calls (world st') = S (sleep_calls (world st)).
Proof.
  unfold sleep. unfold_m. simpl.
  destruct (for_each_perform (other_tasks env (sleep_calls (world st)))
              {| self := self st; world := tick_sleep (log (EvSleep secs) (world st)) |})
    as (st' & H & Ht & Hs & Hc).
  exists st'. rewrite H. simpl in *. auto.
Qed.

(** With no other task to run, a sleep leaves the object as it is. *)
Lemma sleep_idle secs st :
  other_tasks env (sleep_calls (world st)) = [] ->
  sleep env secs st
  = (Returns tt,
     {| self := self st; world := tick_sleep (log (EvSleep secs) (world st)) |}).
Proof. intros H. unfold sleep. unfold_m. simpl. rewrite H. reflexivity. Qed.

(** The cycle, by what sleeping and sampling leave behind. *)
Lemma run_cycle_after_sampling st st1 :
  bind (sleep env MIN_GRANULARITY_SECS) (fun _ => query_gauges) st
  = (Returns tt, st1) ->
  run_cycle env st
  = if pending (self st1) then push_metrics env st1 else (Returns tt, st1).
Proof.
  intros H. apply bind_Returns_inv in H. destruct H as ([] & sm & Hs & Hq).
  unfold run_cycle.
  rewrite (bind_Returns _ _ _ _ _ Hs), (bind_Returns _ _ _ _ _ Hq).
  unfold bind, get_self, pending. simpl.
  destruct ((0 <? len (counters (self st1)))%nat || (0 <? len (gauges (self st1)))%nat);
    reflexivity.
Qed.

Lemma run_cycle_sampling_raises st sm e :
  sleep env MIN_GRANULARITY_SECS st = (Returns tt, sm) ->
  first_failure (app_state (world sm)) (gauge_callbacks (self sm)) = Some e ->
  run_cycle env st = (Raises e, snd (query_gauges sm)).
Proof.
  intros Hs Hf. unfold run_cycle. rewrite (bind_Returns _ _ _ _ _ Hs).
  apply bind_Raises. rewrite query_gauges_spec, Hf. reflexivity.
Qed.

Lemma run_S_Raises cycles st e st' :
  run_cycle env st = (Raises e, st') -> run env (S cycles) st = (Raises e, st').
Proof. intros H. cbn [run]. now apply bind_Raises. Qed.

Lemma run_S_Returns cycles st st' :
  run_cycle env st = (Returns tt, st') -> run env (S cycles) st = run env cycles st'.
Proof.
  intros H. cbn [run].
  exact (bind_Returns (run_cycle env) (fun _ => run env cycles) st tt st' H).
Qed.

(** A cycle of a process that has nothing pending, no gauge and no other
    task at work only records that it slept. *)
Lemma run_cycle_idle st :
  counters (self st) = [] -> gauges (self st) = [] ->
  gauge_callbacks (self st) = [] ->
  other_tasks env (sleep_calls (world st)) = [] ->
  run_cycle env st
  = (Returns tt,
     {| self := self st;
        world := tick_sleep (log (EvSleep MIN_GRANULARITY_SECS) (world st)) |}).
Proof.
  intros Hc Hg Hcb Hidle. unfold run_cycle.
  rewrite (bind_Returns _ _ _ _ _ (sleep_idle _ st Hidle)).
  unfold bind at 1. rewrite query_gauges_spec. simpl. rewrite Hcb. simpl.
  unfold bind, get_self. simpl. rewrite Hc, Hg. simpl.
  rewrite log_all_nil. rewrite <- Hg at 1. now rewrite set_gauges_same.
Qed.

End LoopFacts.

(** ** Gauge Points never get a start_time *)

Section GaugeIntervalFacts.

Context {AppState : Type}.
Variable env : Env AppState.
Implicit Types (st : State AppState) (g d : dict Point).

Lemma Forall_set {V : Type} (P : string * V -> Prop) (d0 : dict V) k v :
  (forall k', P (k', v)) -> Forall P d0 -> Forall P (PyDict.set k v d0).
Proof.
  intros Hv. induction 1 as [|[k' v'] d' Hx Hd IH]; simpl.
  - constructor; auto.
  - destruct (String.eqb k' k); constructor; auto.
Qed.

Lemma Forall_get {V : Type} (P : string * V -> Prop) (d0 : dict V) k v :
  Forall P d0 -> get k d0 = Some v -> exists k', P (k', v).
Proof.
  induction 1 as [|[k' v'] d' Hx Hd IH]; simpl; [discriminate|].
  destruct (String.eqb k' k); auto.
  intros [= <-]. now exists k'.
Qed.

Lemma point_at_unstarted k g :
  Forall unstarted g -> start_time (interval (point_at k g)) = None.
Proof.
  intros Hg. unfold point_at. destruct (get k g) as [p|] eqn:E; [|reflexivity].
  destruct (Forall_get _ _ _ _ Hg E) as [k' H]. exact H.
Qed.

Lemma sampled_unstarted a (cbs : dict (Callable AppState)) : forall g,
  Forall unstarted g -> Forall unstarted (sampled a cbs g).
Proof.
  induction cbs as [|[n f] cbs IH]; intros g Hg; simpl; auto.
  destruct (f a) as [x|e]; auto.
  apply IH. apply Forall_set; auto.
  intros k'. unfold unstarted. simpl. now apply point_at_unstarted.
Qed.

Lemma write_back_unstarted clock d : forall k g,
  Forall unstarted d -> Forall unstarted g ->
  Forall unstarted (write_back clock k d g).
Proof.
  induction d as [|[n p] d IH]; intros k g Hd Hg; simpl; auto.
  inversion Hd as [|? ? Hp Hd']; subst.
  apply IH; auto. apply Forall_set; auto.
Qed.

Lemma gauges_unstarted_init project resource :
  gauges_unstarted (@Metrics_init AppState project resource).
Proof. constructor. Qed.

Lemma gauges_unstarted_query_gauges st :
  gauges_unstarted (self st) -> gauges_unstarted (self (snd (query_gauges st))).
Proof.
  intros H. rewrite query_gauges_spec. simpl. now apply sampled_unstarted.
Qed.

Lemma gauges_unstarted_push_metrics st :
  gauges_unstarted (self st) -> gauges_unstarted (self (snd (push_metrics env st))).
Proof.
  intros H. rewrite push_metrics_spec. cbv zeta.
  destruct (create_time_series env _ _); simpl.
  - now apply write_back_unstarted.
  - constructor.
Qed.

Lemma gauges_unstarted_perform a st :
  gauges_unstarted (self st) -> gauges_unstarted (self (snd (perform env a st))).
Proof.
  intros H. destruct a as [n|n f|a]; simpl; auto.
  rewrite increment_spec. exact H.
Qed.

Lemma gauges_unstarted_for_each_perform (l : list (Action AppState)) : forall st,
  gauges_unstarted (self st) ->
  gauges_unstarted (self (snd (for_each l (perform env) st))).
Proof.
  induction l as [|a l IH]; intros st H; cbn [for_each]; auto.
  destruct (perform_spec env a st) as (st1 & H1 & _).
  rewrite (bind_Returns _ _ _ _ _ H1). apply IH.
  replace st1 with (snd (perform env a st)) by now rewrite H1.
  now apply gauges_unstarted_perform.
Qed.

Lemma gauges_unstarted_sleep secs st :
  gauges_unstarted (self st) -> gauges_unstarted (self (snd (sleep env secs st))).
Proof.
  intros H. unfold sleep. unfold_m. simpl.
  now apply gauges_unstarted_for_each_perform.
Qed.

(** The invariant of the whole loop. *)
Lemma gauges_unstarted_run_cycle st :
  gauges_unstarted (self st) -> gauges_unstarted (self (snd (run_cycle env st))).
Proof.
  intros H. unfold run_cycle.
  destruct (sleep_spec env MIN_GRANULARITY_SECS st) as (sm & Hs & _).
  pose proof (gauges_unstarted_sleep MIN_GRANULARITY_SECS st H) as Hm.
  rewrite Hs in Hm. simpl in Hm.
  rewrite (bind_Returns _ _ _ _ _ Hs).
  pose proof (gauges_unstarted_query_gauges sm Hm) as Hq.
  unfold bind at 1. destruct (query_gauges sm) as [[[]|e] s1]; simpl in Hq; auto.
  unfold bind, get_self.
  destruct ((0 <? len (counters (self s1)))%nat || (0 <? len (gauges (self s1)))%nat).
  - now apply gauges_unstarted_push_metrics.
  - exact Hq.
Qed.

Lemma gauges_unstarted_run cycles : forall st,
  gauges_unstarted (self st) -> gauges_unstarted (self (snd (run env cycles st))).
Proof.
  induction cycles as [|cycles IH]; intros st H; cbn [run]; auto.
  pose proof (gauges_unstarted_run_cycle st H) as Hc.
  unfold bind. destruct (run_cycle env st) as [[[]|e] s1]; simpl in Hc; auto.
Qed.

End GaugeIntervalFacts.

(** * The claims *)

Section Claims.

Context {AppState : Type}.
Variable env : Env AppState.
Implicit Types (st : State AppState).

(** Whatever the state, after [increment] the name's Point carries the
    current clock reading as its [start_time]: the assignment is made on
    every call, not only when the name is new. *)
Lemma increment_start_time metric_name st :
  exists point,
    get metric_name (counters (self (snd (increment env metric_name st))))
    = Some point
    /\ start_time (interval point) = Some (clock env (now_calls (world st))).
Proof.
  rewrite increment_spec. simpl. rewrite get_set_same.
  eexists. split; reflexivity.
Qed.

(** C4: with exactly counter "a" at 3 and gauge "b" at 7.5 pending,
    [push_metrics] hands the backend one request of exactly two records: a
    CUMULATIVE one of type custom.googleapis.com/a with value 3, then a GAUGE
    one of type custom.googleapis.com/b with value 7.5, each with the
    resource type and the five labels of the configured [ResourceData]. *)
Theorem C4_record_conversion project rd cbs iv_a iv_b (w : World AppState) :
  let st :=
    {| self :=
         {| project_id := project;
            resource_data := rd;
            counters :=
              [("a", {| interval := iv_a; value := {| double_value := 3%float |} |})];
            gauges :=
              [("b", {| interval := iv_b; value := {| double_value := 7.5%float |} |})];
            gauge_callbacks := cbs |};
       world := w |} in
  submissions (trace (world (snd (push_metrics env st))))
  = submissions (trace w)
    ++ [ {| name := "projects/" ++ project;
            time_series :=
              [ {| metric_type := "custom.googleapis.com/a";
                   metric_kind := CUMULATIVE;
                   resource :=
                     {| type := resource_type rd;
                        labels := [("cluster_name", cluster_name rd);
                                   ("namespace_name", namespace_name rd);
                                   ("location", location rd);
                                   ("container_name", container_name rd);
                                   ("pod_name", pod_name rd)] |};
                   points :=
                     [ {| interval :=
                            {| start_time := start_time iv_a;
                               end_time := Some (clock env (now_calls w)) |};
                          value := {| double_value := 3%float |} |} ] |};
                {| metric_type := "custom.googleapis.com/b";
                   metric_kind := GAUGE;
                   resource :=
                     {| type := resource_type rd;
                        labels := [("cluster_name", cluster_name rd);
                                   ("namespace_name", namespace_name rd);
                                   ("location", location rd);
                                   ("container_name", container_name rd);
                                   ("pod_name", pod_name rd)] |};
                   points :=
                     [ {| interval :=
                            {| start_time := start_time iv_b;
                               end_time := Some (clock env (now_calls w + 1)) |};
                          value := {| double_value := 7.5%float |} |} ] |} ] |} ].
Proof.
  intros st. rewrite push_metrics_spec. cbv zeta.
  destruct (create_time_series env _ _); simpl;
    rewrite submissions_app; reflexivity.
Qed.

(** C6: once [push_metrics] has returned, no counter is left, so one
    [increment] of a name starts again from a new Point: the counters then
    hold that name alone, with value exactly 1. *)
Theorem C6_counter_reset_after_flush metric_name st st1 :
  push_metrics env st = (Returns tt, st1) ->
  counters (self st1) = []
  /\ exists st2,
       increment env metric_name st1 = (Returns tt, st2)
       /\ counters (self st2)
          = [(metric_name,
              {| interval :=
                   {| start_time := Some (clock env (now_calls (world st1)));
                      end_time := None |};
                 value := {| double_value := 1%float |} |})].
Proof.
  intros H. rewrite push_metrics_spec in H. cbv zeta in H.
  destruct (create_time_series env _ _); [discriminate|].
  injection H as <-. split; [reflexivity|].
  rewrite increment_spec. eexists. split; reflexivity.
Qed.

(** C10: whatever its outcome, [query_gauges] leaves the counters, the
    registry of gauge functions, the project and the resource data as they
    were, and leaves every gauge entry whose name has no registered function
    as it was. *)
Theorem C10_query_gauges_frame st :
  counters (self (snd (query_gauges st))) = counters (self st)
  /\ gauge_callbacks (self (snd (query_gauges st))) = gauge_callbacks (self st)
  /\ project_id (self (snd (query_gauges st))) = project_id (self st)
  /\ resource_data (self (snd (query_gauges st))) = resource_data (self st)
  /\ forall k,
       ~ In k (keys (gauge_callbacks (self st))) ->
       get k (gauges (self (snd (query_gauges st)))) = get k (gauges (self st)).
Proof.
  rewrite query_gauges_spec. simpl. repeat split.
  intros k Hk. now apply sampled_get_other.
Qed.

End Claims.

(** C1 (defect of the code): counter "a" is incremented twice in one
    accumulation period, at clock readings one second apart. The first call
    stamps the start of the period; the second call assigns [start_time]
    again, so the period's start moves to the time of the last increment. *)
Theorem C1_increment_restamps_start_time :
  let st1 := snd (increment Scenario.env_quiet "a" Scenario.state0) in
  let st2 := snd (increment Scenario.env_quiet "a" st1) in
  get "a" (counters (self st1))
  = Some {| interval := {| start_time := Some 1700000000000000%Z; end_time := None |};
            value := {| double_value := 1%float |} |}
  /\ get "a" (counters (self st2))
     = Some {| interval := {| start_time := Some 1700000001000000%Z; end_time := None |};
               value := {| double_value := 2%float |} |}.
Proof. vm_compute. split; reflexivity. Qed.

(** Counter "c" at 5, flushed to a backend that accepts, then incremented. *)
Lemma C6_counter_reset_after_flush_witness :
  counters (self (snd (push_metrics Scenario.env_quiet Scenario.state_five))) = []
  /\ exists st2,
       increment Scenario.env_quiet "c"
         (snd (push_metrics Scenario.env_quiet Scenario.state_five))
       = (Returns tt, st2)
       /\ counters (self st2)
          = [("c",
              {| interval :=
                   {| start_time :=
                        Some (clock Scenario.env_quiet
                                (now_calls (world (snd (push_metrics Scenario.env_quiet
                                                          Scenario.state_five)))));
                      end_time := None |};
                 value := {| double_value := 1%float |} |})].
Proof.
  apply (C6_counter_reset_after_flush Scenario.env_quiet "c" Scenario.state_five).
  vm_compute. reflexivity.
Defined.

(** The name "queue" has no function among the three registered ones. *)
Lemma C10_query_gauges_frame_witness :
  get "queue" (gauges (self (snd (query_gauges Scenario.state_three_gauges))))
  = get "queue" (gauges (self Scenario.state_three_gauges)).
Proof.
  apply (C10_query_gauges_frame Scenario.state_three_gauges).
  simpl. intros [H|[H|[H|[]]]]; discriminate.
Defined.

(** ** Sampling, as the loop sees it *)

Section SamplingClaims.

Context {AppState : Type}.
Implicit Types (st : State AppState) (cbs : dict (Callable AppState)).

Lemma keys_called a cbs k : In k (keys (called a cbs)) -> In k (keys cbs).
Proof.
  induction cbs as [|[n f] cbs IH]; simpl; auto.
  destruct (f a); simpl; tauto.
Qed.

(** The functions called under a name of a dictionary: none, or the one
    bound to the name. *)
Lemma gauge_calls_called a cbs k gauge_f :
  wf cbs -> get k cbs = Some gauge_f ->
  gauge_calls k (map gauge_call_event (called a cbs)) = []
  \/ gauge_calls k (map gauge_call_event (called a cbs)) = [gauge_f].
Proof.
  induction cbs as [|[n f] cbs IH]; simpl; [discriminate|].
  intros Hwf Hget. unfold wf in Hwf. simpl in Hwf.
  inversion Hwf as [|? ? Hn Hwf']; subst.
  destruct (String.eqb_spec n k) as [->|Hne].
  - injection Hget as <-. right.
    destruct (f a); simpl; rewrite String.eqb_refl; [|reflexivity].
    f_equal. apply gauge_calls_absent. intros Hin. apply Hn.
    now apply keys_called in Hin.
  - destruct (f a); simpl; destruct (String.eqb_spec n k); try contradiction; auto.
Qed.

(** C8: a name registered with [A] and then with [B] is registered exactly
    as if only [B] had been. A sampling then calls, under that name, [B] and
    nothing else, at most once; when the sampling returns, [B] was called
    once and the number it returned is the gauge value of the name. *)
Theorem C8_gauge_last_write_wins metric_name (A B : Callable AppState) st :
  wf (gauge_callbacks (self st)) ->
  bind (gauge metric_name A) (fun _ => gauge metric_name B) st
  = gauge metric_name B st
  /\ get metric_name (gauge_callbacks (self (snd (gauge metric_name B st))))
     = Some B
  /\ (gauge_calls metric_name
        (trace (world (snd (query_gauges (snd (gauge metric_name B st))))))
      = gauge_calls metric_name (trace (world st))
      \/ gauge_calls metric_name
           (trace (world (snd (query_gauges (snd (gauge metric_name B st))))))
         = gauge_calls metric_name (trace (world st)) ++ [B])
  /\ forall st3,
       query_gauges (snd (gauge metric_name B st)) = (Returns tt, st3) ->
       gauge_calls metric_name (trace (world st3))
       = gauge_calls metric_name (trace (world st)) ++ [B]
       /\ exists x point,
            B (app_state (world st)) = Returns x
            /\ get metric_name (gauges (self st3)) = Some point
            /\ double_value (value point) = x.
Proof.
  intros Hwf.
  set (cbs2 := PyDict.set metric_name B (gauge_callbacks (self st))).
  assert (Hwf2 : wf cbs2) by now apply wf_set.
  assert (Hget2 : get metric_name cbs2 = Some B) by apply get_set_same.
  split; [|split; [|split]].
  - unfold gauge. unfold_m. simpl. now rewrite set_set_same.
  - exact Hget2.
  - rewrite query_gauges_spec. simpl. fold cbs2. rewrite gauge_calls_app.
    destruct (gauge_calls_called (app_state (world st)) cbs2 metric_name B Hwf2 Hget2)
      as [H|H]; rewrite H; [left; apply app_nil_r | right; reflexivity].
  - intros st3 H. rewrite query_gauges_spec in H. simpl in H. fold cbs2 in H.
    destruct (first_failure (app_state (world st)) cbs2) eqn:Hff; [discriminate|].
    injection H as <-. simpl. split.
    + rewrite gauge_calls_app, (called_all _ _ Hff).
      now rewrite (gauge_calls_present metric_name cbs2 B Hwf2 Hget2).
    + apply sampled_get; assumption.
Qed.

(** C9: when the registered functions before one all return and that one
    raises [e], [query_gauges] raises [e]; the gauges are what sampling the
    functions before it alone gives, and the trace gains their calls and the
    failing call, in order, and no call of a function registered after it.
    Names not registered before the failing one keep their entry. *)
Theorem C9_sampling_fails_fast st pre metric_name gauge_f post e :
  gauge_callbacks (self st) = pre ++ (metric_name, gauge_f) :: post ->
  Forall (fun item => exists x, snd item (app_state (world st)) = Returns x) pre ->
  gauge_f (app_state (world st)) = Raises e ->
  query_gauges st
  = (Raises e,
     {| self :=
          set_gauges (sampled (app_state (world st)) pre (gauges (self st))) (self st);
        world :=
          log_all (map gauge_call_event pre ++ [EvGaugeCall metric_name gauge_f])
            (world st) |})
  /\ query_gauges {| self := set_gauge_callbacks pre (self st); world := world st |}
     = (Returns tt,
        {| self :=
             set_gauges (sampled (app_state (world st)) pre (gauges (self st)))
               (set_gauge_callbacks pre (self st));
           world := log_all (map gauge_call_event pre) (world st) |})
  /\ forall k,
       ~ In k (keys pre) ->
       get k (gauges (self (snd (query_gauges st)))) = get k (gauges (self st)).
Proof.
  intros Hcbs Hpre Hf.
  destruct (sampled_prefix (app_state (world st)) pre metric_name gauge_f post e
              (gauges (self st)) Hpre Hf) as (H1 & H2 & H3 & H4 & H5).
  assert (Hq : query_gauges st
    = (Raises e,
       {| self :=
            set_gauges (sampled (app_state (world st)) pre (gauges (self st))) (self st);
          world :=
            log_all (map gauge_call_event pre ++ [EvGaugeCall metric_name gauge_f])
              (world st) |})).
  { rewrite query_gauges_spec, Hcbs. unfold Callable, dict in *.
    rewrite H1, H2, H4, map_app. reflexivity. }
  split; [exact Hq|split].
  - rewrite query_gauges_spec. simpl. now rewrite H3, H5.
  - intros k Hk. rewrite Hq. simpl. now apply sampled_get_other.
Qed.

End SamplingClaims.

(** ** The flush and the loop *)

Section FlushClaims.

Context {AppState : Type}.
Variable env : Env AppState.
Implicit Types (st : State AppState) (d : dict Point).

Lemma length_series_from rd kind clock d : forall k,
  length (series_from rd kind clock k d) = length d.
Proof. induction d as [|[n p] d IH]; intros k; simpl; auto. Qed.

(** The records built for gauge Points that have no [start_time]. *)
Lemma series_from_unstarted rd clock d : forall k,
  Forall unstarted d ->
  Forall2
    (fun item series =>
       metric_type series = (METRIC_BASE ++ "/" ++ fst item)%string
       /\ metric_kind series = GAUGE
       /\ resource series = resource_tag rd
       /\ exists t,
            points series
            = [ {| interval := {| start_time := None; end_time := Some t |};
                   value := value (snd item) |} ])
    d (series_from rd GAUGE clock k d).
Proof.
  induction d as [|[n p] d IH]; intros k Hd; simpl; constructor.
  - inversion Hd as [|? ? Hp _]; subst. unfold unstarted in Hp. simpl in Hp.
    split; [reflexivity|split; [reflexivity|split; [reflexivity|]]].
    exists (clock k). cbn [series_of points]. unfold set_end_time.
    now rewrite Hp.
  - apply IH. now inversion Hd.
Qed.

(** What sleeping and a sampling that returns and leaves nothing pending
    say about the state: no gauge function is registered, and the sampling
    changed nothing. *)
Lemma empty_after_sampling st sm st1 :
  sleep env MIN_GRANULARITY_SECS st = (Returns tt, sm) ->
  query_gauges sm = (Returns tt, st1) ->
  gauges (self st1) = [] ->
  st1 = sm /\ gauge_callbacks (self sm) = [].
Proof.
  intros Hs Hq Hg. rewrite query_gauges_spec in Hq.
  destruct (first_failure (app_state (world sm)) (gauge_callbacks (self sm)))
    eqn:Hff; [discriminate|].
  injection Hq as <-. simpl in Hg.
  pose proof (sampled_empty _ _ _ Hff Hg) as Hcb.
  split; [|exact Hcb]. rewrite Hcb. simpl.
  now rewrite log_all_nil, set_gauges_same, state_eta.
Qed.

(** C7: when sleeping and sampling return and leave both dictionaries
    empty, the cycle ends there: the backend is not called and the trace
    holds no new request. When no other task acts during the next sleep
    either, the second cycle does the same. *)
Theorem C7_empty_cycle_skips_submission st st1 :
  bind (sleep env MIN_GRANULARITY_SECS) (fun _ => query_gauges) st
  = (Returns tt, st1) ->
  counters (self st1) = [] ->
  gauges (self st1) = [] ->
  run_cycle env st = (Returns tt, st1)
  /\ sink_calls (world st1) = sink_calls (world st)
  /\ submissions (trace (world st1)) = submissions (trace (world st))
  /\ (other_tasks env (sleep_calls (world st1)) = [] ->
      exists st2,
        run env 2 st = (Returns tt, st2)
        /\ self st2 = self st1
        /\ sink_calls (world st2) = sink_calls (world st)
        /\ submissions (trace (world st2)) = submissions (trace (world st))).
Proof.
  intros H Hc Hg.
  assert (Hcycle : run_cycle env st = (Returns tt, st1)).
  { rewrite (run_cycle_after_sampling env st st1 H).
    unfold pending. now rewrite Hc, Hg. }
  apply bind_Returns_inv in H. destruct H as ([] & sm & Hs & Hq).
  destruct (empty_after_sampling st sm st1 Hs Hq Hg) as [-> Hcb].
  destruct (sleep_spec env MIN_GRANULARITY_SECS st) as (sm' & Hs' & Ht & Hk & _).
  rewrite Hs in Hs'. injection Hs' as <-.
  assert (Hsub : submissions (trace (world sm)) = submissions (trace (world st))).
  { rewrite Ht, submissions_app. simpl. apply app_nil_r. }
  repeat split; auto.
  intros Hidle. eexists. split.
  - rewrite (run_S_Returns env 1 st sm Hcycle). cbn [run].
    rewrite (bind_Returns _ _ _ _ _ (run_cycle_idle env sm Hc Hg Hcb Hidle)).
    reflexivity.
  - simpl. repeat split; auto.
    rewrite submissions_app. simpl. rewrite app_nil_r. exact Hsub.
Qed.

(** C2, as the code has it: a gauge function that raises, or a backend that
    raises on the request of the cycle, ends [run] with that exception. The
    cycle raises, [run] raises the same whatever the number of cycles it was
    allowed, and the trace holds one sleep more than before: the loop never
    reaches its next wait. *)
Theorem C2_failure_ends_run cycles st sm e :
  sleep env MIN_GRANULARITY_SECS st = (Returns tt, sm) ->
  first_failure (app_state (world sm)) (gauge_callbacks (self sm)) = Some e
  \/ (first_failure (app_state (world sm)) (gauge_callbacks (self sm)) = None
      /\ pending (self (snd (query_gauges sm))) = true
      /\ create_time_series env
           (sink_calls (world (snd (query_gauges sm))))
           (flush_request (clock env)
              (now_calls (world (snd (query_gauges sm))))
              (self (snd (query_gauges sm))))
         = Some e) ->
  exists st',
    run_cycle env st = (Raises e, st')
    /\ run env (S cycles) st = (Raises e, st')
    /\ sleeps (trace (world st')) = S (sleeps (trace (world st))).
Proof.
  intros Hs Hfail.
  destruct (sleep_spec env MIN_GRANULARITY_SECS st) as (sm' & Hs' & Ht & _).
  rewrite Hs in Hs'. injection Hs' as <-.
  assert (Hsl : sleeps (trace (world sm)) = S (sleeps (trace (world st)))).
  { rewrite Ht, sleeps_app. simpl. lia. }
  assert (Hq : sleeps (trace (world (snd (query_gauges sm)))) = sleeps (trace (world sm))).
  { rewrite query_gauges_spec. simpl. rewrite sleeps_app, sleeps_gauge_calls. lia. }
  destruct Hfail as [Hff | (Hff & Hpend & Hsink)].
  - pose proof (run_cycle_sampling_raises env st sm e Hs Hff) as Hc.
    exists (snd (query_gauges sm)). split; [exact Hc|split].
    + now apply run_S_Raises.
    + congruence.
  - assert (Hret : query_gauges sm = (Returns tt, snd (query_gauges sm))).
    { rewrite query_gauges_spec, Hff. reflexivity. }
    assert (Hc : run_cycle env st = push_metrics env (snd (query_gauges sm))).
    { rewrite (run_cycle_after_sampling env st (snd (query_gauges sm))).
      - now rewrite Hpend.
      - rewrite (bind_Returns _ _ _ _ _ Hs). exact Hret. }
    rewrite push_metrics_spec in Hc. cbv zeta in Hc. rewrite Hsink in Hc.
    eexists. split; [exact Hc|split].
    + now apply run_S_Raises.
    + simpl. rewrite sleeps_app. simpl. lia.
Qed.

(** C3, as the code has it: when the backend raises on the request,
    [push_metrics] raises the same and clears nothing. Both dictionaries keep
    their entries, in order, each Point with the value and the [start_time]
    it had: only its [end_time] has been assigned. *)
Theorem C3_failed_flush_keeps_state st e :
  wf (counters (self st)) ->
  wf (gauges (self st)) ->
  create_time_series env (sink_calls (world st))
    (flush_request (clock env) (now_calls (world st)) (self st)) = Some e ->
  exists st',
    push_metrics env st = (Raises e, st')
    /\ counters (self st')
       = stamp_from (clock env) (now_calls (world st)) (counters (self st))
    /\ gauges (self st')
       = stamp_from (clock env)
           (now_calls (world st) + length (counters (self st))) (gauges (self st))
    /\ map accumulated (counters (self st')) = map accumulated (counters (self st))
    /\ map accumulated (gauges (self st')) = map accumulated (gauges (self st))
    /\ gauge_callbacks (self st') = gauge_callbacks (self st).
Proof.
  intros Hwc Hwg Hsink. rewrite push_metrics_spec. cbv zeta. rewrite Hsink.
  eexists. split; [reflexivity|]. simpl.
  rewrite !write_back_wf by assumption.
  rewrite !accumulated_stamp_from. repeat split.
Qed.

(** C5, as the code has it: [push_metrics] turns the pending gauge entries,
    in order, into the last records of its request. Each is a GAUGE record
    of the entry's name and value with the resource tag, and its one Point
    has the clock reading taken for that record as [end_time] and no
    [start_time]: gauge Points never get one. *)
Theorem C5_gauge_records st :
  gauges_unstarted (self st) ->
  exists counter_series gauge_series,
    submissions (trace (world (snd (push_metrics env st))))
    = submissions (trace (world st))
      ++ [ {| name := common_project_path (project_id (self st));
              time_series := counter_series ++ gauge_series |} ]
    /\ length counter_series = length (counters (self st))
    /\ gauge_series
       = series_from (resource_data (self st)) GAUGE (clock env)
           (now_calls (world st) + length (counters (self st))) (gauges (self st))
    /\ Forall2
         (fun item series =>
            metric_type series = (METRIC_BASE ++ "/" ++ fst item)%string
            /\ metric_kind series = GAUGE
            /\ resource series = resource_tag (resource_data (self st))
            /\ exists t,
                 points series
                 = [ {| interval := {| start_time := None; end_time := Some t |};
                        value := value (snd item) |} ])
         (gauges (self st)) gauge_series.
Proof.
  intros Hun. eexists. eexists. split; [|split; [|split; [reflexivity|]]].
  - rewrite push_metrics_spec. cbv zeta.
    destruct (create_time_series env _ _); simpl;
      rewrite submissions_app; reflexivity.
  - apply length_series_from.
  - now apply series_from_unstarted.
Qed.

End FlushClaims.

(** * Concrete runs *)

Import Scenario.

(** Closes [wf] of a literal dictionary. *)
Ltac literal_wf :=
  unfold wf; simpl;
  repeat (constructor; [simpl; intuition discriminate|]);
  constructor.

(** C2 fails on the code. Three cycles are allowed. In the first run the
    backend rejects the only request; in the second a gauge function raises.
    Each time [run] ends with the exception after a single sleep. *)
Lemma C2_counterexample :
  (fst (run (env_down one_increment) 3 state0)
   = Raises (GoogleAPIError "503 unavailable")
   /\ sleeps (trace (world (snd (run (env_down one_increment) 3 state0)))) = 1)
  /\ (fst (run env_quiet 3 state_three_gauges)
      = Raises (Exception "division by zero")
      /\ sleeps (trace (world (snd (run env_quiet 3 state_three_gauges)))) = 1).
Proof. vm_compute. repeat split. Qed.

(** One increment during the first sleep, and a backend that rejects. *)
Lemma C2_failure_ends_run_witness :
  exists st',
    run_cycle (env_down one_increment) state0
    = (Raises (GoogleAPIError "503 unavailable"), st')
    /\ run (env_down one_increment) 3 state0
       = (Raises (GoogleAPIError "503 unavailable"), st')
    /\ sleeps (trace (world st')) = S (sleeps (trace (world state0))).
Proof.
  apply (C2_failure_ends_run (env_down one_increment) 2 state0
           (snd (sleep (env_down one_increment) MIN_GRANULARITY_SECS state0))
           (GoogleAPIError "503 unavailable")).
  - vm_compute. reflexivity.
  - right. vm_compute. repeat split.
Defined.

(** C3 fails on the code. One gauge is registered and counter "a" is
    incremented during the sleep; the backend rejects the request. After the
    cycle both dictionaries still hold their entry. *)
Lemma C3_counterexample :
  fst (run_cycle (env_down one_increment) state_gauge)
  = Raises (GoogleAPIError "503 unavailable")
  /\ counters (self (snd (run_cycle (env_down one_increment) state_gauge)))
     = [("a", {| interval := {| start_time := Some 1700000000000000%Z;
                                end_time := Some 1700000001000000%Z |};
                 value := {| double_value := 1%float |} |})]
  /\ gauges (self (snd (run_cycle (env_down one_increment) state_gauge)))
     = [("g", {| interval := {| start_time := None;
                                end_time := Some 1700000002000000%Z |};
                 value := {| double_value := 7.5%float |} |})].
Proof. vm_compute. repeat split. Qed.

(** Counter "a" and gauge "b" pending, and a backend that rejects. *)
Lemma C3_failed_flush_keeps_state_witness :
  exists st',
    push_metrics (env_down one_increment) state_pending
    = (Raises (GoogleAPIError "503 unavailable"), st')
    /\ counters (self st')
       = stamp_from clock0 1 (counters (self state_pending))
    /\ gauges (self st')
       = stamp_from clock0 2 (gauges (self state_pending))
    /\ map accumulated (counters (self st'))
       = map accumulated (counters (self state_pending))
    /\ map accumulated (gauges (self st'))
       = map accumulated (gauges (self state_pending))
    /\ gauge_callbacks (self st') = gauge_callbacks (self state_pending).
Proof.
  apply (C3_failed_flush_keeps_state (env_down one_increment) state_pending
           (GoogleAPIError "503 unavailable")).
  - literal_wf.
  - literal_wf.
  - reflexivity.
Defined.

(** C5 fails on the code. One gauge is registered and sampled; the request
    of the cycle holds its GAUGE record, whose Point has an [end_time] and
    no [start_time]. *)
Lemma C5_counterexample :
  submissions (trace (world (snd (run_cycle env_quiet state_gauge))))
  = [ {| name := "projects/hail-vdc";
         time_series :=
           [ {| metric_type := "custom.googleapis.com/g";
                metric_kind := GAUGE;
                resource := resource_tag resource_data0;
                points :=
                  [ {| interval := {| start_time := None;
                                      end_time := Some 1700000000000000%Z |};
                       value := {| double_value := 7.5%float |} |} ] |} ] |} ]
  /\ (None : option Z) <> Some 1700000000000000%Z.
Proof. split; [vm_compute; reflexivity | discriminate]. Qed.

(** Counter "a" and gauge "b" pending, and a backend that accepts. *)
Lemma C5_gauge_records_witness :
  exists counter_series gauge_series,
    submissions (trace (world (snd (push_metrics env_quiet state_pending))))
    = submissions (trace (world state_pending))
      ++ [ {| name := common_project_path (project_id (self state_pending));
              time_series := counter_series ++ gauge_series |} ]
    /\ length counter_series = length (counters (self state_pending))
    /\ gauge_series
       = series_from (resource_data (self state_pending)) GAUGE clock0
           (now_calls (world state_pending) + length (counters (self state_pending)))
           (gauges (self state_pending))
    /\ Forall2
         (fun item series =>
            metric_type series = (METRIC_BASE ++ "/" ++ fst item)%string
            /\ metric_kind series = GAUGE
            /\ resource series = resource_tag (resource_data (self state_pending))
            /\ exists t,
                 points series
                 = [ {| interval := {| start_time := None; end_time := Some t |};
                        value := value (snd item) |} ])
         (gauges (self state_pending)) gauge_series.
Proof.
  apply (C5_gauge_records env_quiet state_pending).
  repeat constructor.
Defined.

(** A new process: nothing registered, nothing counted, no other task. *)
Lemma C7_empty_cycle_skips_submission_witness :
  run_cycle env_quiet state0
  = (Returns tt, snd (run_cycle env_quiet state0))
  /\ sink_calls (world (snd (run_cycle env_quiet state0))) = sink_calls (world state0)
  /\ submissions (trace (world (snd (run_cycle env_quiet state0))))
     = submissions (trace (world state0))
  /\ (other_tasks env_quiet (sleep_calls (world (snd (run_cycle env_quiet state0)))) = [] ->
      exists st2,
        run env_quiet 2 state0 = (Returns tt, st2)
        /\ self st2 = self (snd (run_cycle env_quiet state0))
        /\ sink_calls (world st2) = sink_calls (world state0)
        /\ submissions (trace (world st2)) = submissions (trace (world state0))).
Proof.
  apply (C7_empty_cycle_skips_submission env_quiet state0
           (snd (run_cycle env_quiet state0))).
  - vm_compute. reflexivity.
  - reflexivity.
  - reflexivity.
Defined.

(** "g" registered with [gauge_old], then with [gauge_depth], then sampled. *)
Lemma C8_gauge_last_write_wins_witness :
  gauge_calls "g"
    (trace (world (snd (query_gauges (snd (gauge "g" gauge_depth state0))))))
  = [gauge_depth]
  /\ exists x point,
       gauge_depth (app_state (world state0)) = Returns x
       /\ get "g" (gauges (self (snd (query_gauges (snd (gauge "g" gauge_depth state0))))))
          = Some point
       /\ double_value (value point) = x.
Proof.
  assert (Hwf : wf (gauge_callbacks (self state0))) by literal_wf.
  destruct (C8_gauge_last_write_wins "g" gauge_old gauge_depth state0 Hwf)
    as (_ & _ & _ & H).
  apply (H (snd (query_gauges (snd (gauge "g" gauge_depth state0))))).
  vm_compute. reflexivity.
Defined.

(** Gauges "ok", "bad" and "late", of which "bad" raises. *)
Lemma C9_sampling_fails_fast_witness :
  query_gauges state_three_gauges
  = (Raises (Exception "division by zero"),
     {| self :=
          set_gauges
            (sampled (app_state (world state_three_gauges)) [("ok", gauge_old)]
               (gauges (self state_three_gauges)))
            (self state_three_gauges);
        world :=
          log_all [EvGaugeCall "ok" gauge_old; EvGaugeCall "bad" gauge_broken]
            (world state_three_gauges) |}).
Proof.
  apply (C9_sampling_fails_fast state_three_gauges
           [("ok", gauge_old)] "bad" gauge_broken [("late", gauge_depth)]
           (Exception "division by zero")).
  - reflexivity.
  - constructor; [|constructor]. exists 1%float. reflexivity.
  - reflexivity.
Defined.

(** * Further properties of the operations *)

(** ** Dictionaries, continued *)

Section MoreDictFacts.

Context {V : Type}.
Implicit Types (d : dict V) (k : string) (v : V).

(** Assigning what a key is bound to changes nothing. *)
Lemma set_get_same d k v : get k d = Some v -> PyDict.set k v d = d.
Proof.
  induction d as [|[k' v'] d IH]; simpl; [discriminate|].
  destruct (String.eqb_spec k' k) as [->|Hne].
  - now intros [= ->].
  - intros H. f_equal. auto.
Qed.

Lemma get_in_keys d k : In k (keys d) -> exists v, get k d = Some v.
Proof.
  intros Hin. destruct (get k d) as [v|] eqn:E; [now exists v|].
  apply get_None_keys in E. contradiction.
Qed.

End MoreDictFacts.

(** ** increment, gauge, count and add_to *)

Section CallSiteFacts.

Context {AppState : Type}.
Variable env : Env AppState.
Implicit Types (st : State AppState).

(** X1: [increment] always returns, reads the clock once, and touches the entry
    of its name only: a present name keeps its place, a new one goes last,
    every other counter, the gauges and the registry stay as they were. *)
Theorem increment_frame metric_name st :
  exists st',
    increment env metric_name st = (Returns tt, st')
    /\ (forall k, k <> metric_name ->
          get k (counters (self st')) = get k (counters (self st)))
    /\ keys (counters (self st'))
       = (if in_dec string_dec metric_name (keys (counters (self st)))
          then keys (counters (self st))
          else keys (counters (self st)) ++ [metric_name])
    /\ gauges (self st') = gauges (self st)
    /\ gauge_callbacks (self st') = gauge_callbacks (self st)
    /\ now_calls (world st') = S (now_calls (world st))
    /\ trace (world st') = trace (world st).
Proof.
  rewrite increment_spec. eexists. split; [reflexivity|]. simpl.
  split; [|split; [apply keys_set|repeat split]].
  intros k Hk. apply get_set_other. congruence.
Qed.

Lemma point_at_set_same k p (d : dict Point) : point_at k (PyDict.set k p d) = p.
Proof. unfold point_at. now rewrite get_set_same. Qed.

Lemma point_at_set_other k k' p (d : dict Point) :
  k <> k' -> point_at k' (PyDict.set k p d) = point_at k' d.
Proof. intros H. unfold point_at. now rewrite get_set_other. Qed.

(** X2: A run of increments returns, and the value of a name has grown by one
    for each increment of that name in the run, and by nothing for the
    increments of other names; a name never incremented before starts
    from 0. *)
Theorem increments_count metric_name (names : list string) : forall st,
  fst (for_each names (increment env) st) = Returns tt
  /\ double_value (value (point_at metric_name
       (counters (self (snd (for_each names (increment env) st))))))
     = Nat.iter (count_occ string_dec names metric_name)
         (fun x => (x + 1)%float)
         (double_value (value (point_at metric_name (counters (self st))))).
Proof.
  induction names as [|n names IH]; intros st; cbn [for_each].
  - split; reflexivity.
  - rewrite (bind_Returns _ _ _ _ _ (increment_spec env n st)).
    specialize (IH {| self :=
                        set_counters
                          (PyDict.set n
                             (incremented (clock env (now_calls (world st)))
                                (point_at n (counters (self st))))
                             (counters (self st))) (self st);
                      world := tick_now (world st) |}).
    destruct IH as [IH1 IH2]. split; [exact IH1|]. rewrite IH2.
    cbn [self counters set_counters count_occ].
    destruct (string_dec n metric_name) as [->|Hne].
    + rewrite point_at_set_same. rewrite Nat.iter_succ_r. reflexivity.
    + now rewrite point_at_set_other.
Qed.

(** X3: [gauge] returns the function it is given, binds the name to it, and
    leaves every other name of the registry, the counters, the gauges and
    the world as they were. *)
Theorem gauge_registers metric_name (fn : Callable AppState) st :
  exists st',
    gauge metric_name fn st = (Returns fn, st')
    /\ get metric_name (gauge_callbacks (self st')) = Some fn
    /\ (forall k, k <> metric_name ->
          get k (gauge_callbacks (self st')) = get k (gauge_callbacks (self st)))
    /\ counters (self st') = counters (self st)
    /\ gauges (self st') = gauges (self st)
    /\ world st' = world st.
Proof.
  eexists. split; [reflexivity|]. simpl.
  split; [apply get_set_same|split; [|repeat split]].
  intros k Hk. apply get_set_other. congruence.
Qed.

(** X4: The function that [count] wraps runs in the state that the increment
    has left, and its result or its exception is that of the call: the
    call is counted before the function runs, also when the function
    raises. *)
Theorem count_counts_calls {A : Type} metric_name (fn : M A) st :
  count env metric_name fn st = fn (snd (increment env metric_name st))
  /\ double_value (value (point_at metric_name
       (counters (self (snd (increment env metric_name st))))))
     = (double_value (value (point_at metric_name (counters (self st)))) + 1)%float.
Proof.
  split.
  - unfold count. rewrite (bind_Returns _ _ _ _ _ (increment_spec env metric_name st)).
    now rewrite increment_spec.
  - rewrite increment_spec. simpl. now rewrite point_at_set_same.
Qed.

End CallSiteFacts.

Section AddToFacts.

Implicit Types (rd : ResourceData) (s : TimeSeries).

Lemma labels_add_to rd s :
  labels (resource (add_to rd s))
  = PyDict.set "pod_name" (pod_name rd)
      (PyDict.set "container_name" (container_name rd)
         (PyDict.set "location" (location rd)
            (PyDict.set "namespace_name" (namespace_name rd)
               (PyDict.set "cluster_name" (cluster_name rd)
                  (labels (resource s)))))).
Proof. reflexivity. Qed.

(** What [add_to] leaves on a series. *)
Lemma add_to_lookups rd s :
  type (resource (add_to rd s)) = resource_type rd
  /\ get "cluster_name" (labels (resource (add_to rd s))) = Some (cluster_name rd)
  /\ get "namespace_name" (labels (resource (add_to rd s))) = Some (namespace_name rd)
  /\ get "location" (labels (resource (add_to rd s))) = Some (location rd)
  /\ get "container_name" (labels (resource (add_to rd s))) = Some (container_name rd)
  /\ get "pod_name" (labels (resource (add_to rd s))) = Some (pod_name rd)
  /\ (forall k,
        ~ In k ["cluster_name"; "namespace_name"; "location"; "container_name"; "pod_name"] ->
        get k (labels (resource (add_to rd s))) = get k (labels (resource s)))
  /\ metric_type (add_to rd s) = metric_type s
  /\ metric_kind (add_to rd s) = metric_kind s
  /\ points (add_to rd s) = points s.
Proof.
  rewrite labels_add_to.
  split; [reflexivity|].
  split; [rewrite !get_set_other by discriminate; apply get_set_same|].
  split; [rewrite !get_set_other by discriminate; apply get_set_same|].
  split; [rewrite !get_set_other by discriminate; apply get_set_same|].
  split; [rewrite !get_set_other by discriminate; apply get_set_same|].
  split; [apply get_set_same|].
  split; [|repeat split].
  intros k Hk. simpl in Hk.
  rewrite !get_set_other; auto; intros <-; tauto.
Qed.

(** X5: On any series, [add_to] sets the resource type and binds the five
    labels to the fields of the resource data, whatever they were bound to;
    labels of other names, the metric type, the kind and the points are
    left as they were. *)
Theorem add_to_labels rd s :
  type (resource (add_to rd s)) = resource_type rd
  /\ get "cluster_name" (labels (resource (add_to rd s))) = Some (cluster_name rd)
  /\ get "namespace_name" (labels (resource (add_to rd s))) = Some (namespace_name rd)
  /\ get "location" (labels (resource (add_to rd s))) = Some (location rd)
  /\ get "container_name" (labels (resource (add_to rd s))) = Some (container_name rd)
  /\ get "pod_name" (labels (resource (add_to rd s))) = Some (pod_name rd)
  /\ (forall k,
        ~ In k ["cluster_name"; "namespace_name"; "location"; "container_name"; "pod_name"] ->
        get k (labels (resource (add_to rd s))) = get k (labels (resource s)))
  /\ metric_type (add_to rd s) = metric_type s
  /\ metric_kind (add_to rd s) = metric_kind s
  /\ points (add_to rd s) = points s.
Proof. exact (add_to_lookups rd s). Qed.

(** X6: Tagging a series twice with the same resource data is tagging it
    once. *)
Theorem add_to_idempotent rd s : add_to rd (add_to rd s) = add_to rd s.
Proof.
  destruct (add_to_lookups rd s) as (Ht & H1 & H2 & H3 & H4 & H5 & _).
  remember (add_to rd s) as tagged eqn:E. clear E.
  unfold add_to, set_resource_label, set_resource_type.
  cbn [metric_type metric_kind points resource type labels].
  rewrite (set_get_same _ _ _ H1), (set_get_same _ _ _ H2),
    (set_get_same _ _ _ H3), (set_get_same _ _ _ H4), (set_get_same _ _ _ H5).
  destruct tagged as [mt mk [ty lb] pts]. simpl in Ht. now rewrite Ht.
Qed.

End AddToFacts.

(** ** query_gauges *)

Section MoreSamplingFacts.

Context {AppState : Type}.
Implicit Types (st : State AppState) (g : dict Point)
  (cbs : dict (Callable AppState)) (a : AppState).

Lemma set_double_value_same x (p : Point) :
  set_double_value x (set_double_value x p) = set_double_value x p.
Proof. reflexivity. Qed.

(** Sampling a dictionary of functions a second time, with the process in
    the same state, changes nothing. *)
Lemma sampled_twice a cbs : forall g,
  wf cbs -> sampled a cbs (sampled a cbs g) = sampled a cbs g.
Proof.
  induction cbs as [|[n f] cbs IH]; intros g Hwf; simpl; auto.
  unfold wf in Hwf. simpl in Hwf. inversion Hwf as [|? ? Hn Hwf']; subst.
  destruct (f a) as [x|e]; [|reflexivity].
  set (g1 := PyDict.set n (set_double_value x (point_at n g)) g).
  assert (Hget : get n (sampled a cbs g1) = Some (set_double_value x (point_at n g))).
  { rewrite sampled_get_other by assumption. apply get_set_same. }
  assert (Hp : point_at n (sampled a cbs g1) = set_double_value x (point_at n g)).
  { unfold point_at at 1. now rewrite Hget. }
  rewrite Hp, set_double_value_same, (set_get_same _ _ _ Hget).
  now apply IH.
Qed.

(** X7: When [query_gauges] returns, every registered name has a gauge entry,
    and its value is the number that the function bound to the name
    returned. *)
Theorem query_gauges_binds_all st st' :
  wf (gauge_callbacks (self st)) ->
  query_gauges st = (Returns tt, st') ->
  forall metric_name gauge_f,
    get metric_name (gauge_callbacks (self st)) = Some gauge_f ->
    exists x point,
      gauge_f (app_state (world st)) = Returns x
      /\ get metric_name (gauges (self st')) = Some point
      /\ double_value (value point) = x.
Proof.
  intros Hwf H n f Hget. rewrite query_gauges_spec in H.
  destruct (first_failure (app_state (world st)) (gauge_callbacks (self st)))
    eqn:Hff; [discriminate|].
  injection H as <-. simpl. now apply sampled_get.
Qed.

(** X8: A gauge is overwritten, not accumulated: sampling twice in a row, with
    the process in the same state, leaves the gauges that sampling once
    leaves, and has the same outcome. *)
Theorem query_gauges_twice st :
  wf (gauge_callbacks (self st)) ->
  gauges (self (snd (query_gauges (snd (query_gauges st)))))
  = gauges (self (snd (query_gauges st)))
  /\ fst (query_gauges (snd (query_gauges st))) = fst (query_gauges st).
Proof.
  intros Hwf. rewrite (query_gauges_spec (snd (query_gauges st))).
  rewrite query_gauges_spec. simpl. split; [now apply sampled_twice|reflexivity].
Qed.

(** X9: A sampling makes no gauge of its own: every name among the gauges
    afterwards was among them before or is a registered name. *)
Theorem query_gauges_keys st k :
  In k (keys (gauges (self (snd (query_gauges st))))) ->
  In k (keys (gauges (self st))) \/ In k (keys (gauge_callbacks (self st))).
Proof.
  rewrite query_gauges_spec. simpl.
  generalize (app_state (world st)) (gauges (self st)).
  induction (gauge_callbacks (self st)) as [|[n f] cbs IH]; intros a g; simpl; auto.
  destruct (f a) as [x|e]; auto.
  intros H. apply IH in H. destruct H as [H|H]; auto.
  apply in_keys_set in H. destruct H as [->|H]; auto.
Qed.

End MoreSamplingFacts.

(** ** push_metrics *)

Section MoreFlushFacts.

Context {AppState : Type}.
Variable env : Env AppState.
Implicit Types (st : State AppState) (d : dict Point).

Lemma series_from_shape rd kind clock d : forall k,
  map metric_type (series_from rd kind clock k d) = map metric_type_of (keys d)
  /\ map metric_kind (series_from rd kind clock k d) = repeat kind (length d)
  /\ map single_point (series_from rd kind clock k d)
     = map (@Some Point) (values (stamp_from clock k d))
  /\ Forall (fun series => resource series = resource_tag rd)
       (series_from rd kind clock k d).
Proof.
  induction d as [|[n p] d IH]; intros k; simpl.
  - repeat split; constructor.
  - destruct (IH (S k)) as (H1 & H2 & H3 & H4).
    unfold keys, values in *. rewrite H1, H2, H3.
    repeat split. constructor; auto.
Qed.

(** X10: The request of a flush has one record per pending entry, the counters
    first and then the gauges, each group in the order of its dictionary:
    the metric types are those of the names, the kinds are CUMULATIVE then
    GAUGE, every record carries the resource tag and exactly one Point,
    which is the entry's Point with its [end_time] assigned. *)
Theorem push_metrics_request_shape st :
  exists request,
    trace (world (snd (push_metrics env st)))
    = trace (world st) ++ [EvCreateTimeSeries request]
    /\ name request = ("projects/" ++ project_id (self st))%string
    /\ map metric_type (time_series request)
       = map metric_type_of (keys (counters (self st)) ++ keys (gauges (self st)))
    /\ map metric_kind (time_series request)
       = repeat CUMULATIVE (length (counters (self st)))
         ++ repeat GAUGE (length (gauges (self st)))
    /\ map single_point (time_series request)
       = map (@Some Point)
           (values (stamp_from (clock env) (now_calls (world st)) (counters (self st)))
            ++ values (stamp_from (clock env)
                         (now_calls (world st) + length (counters (self st)))
                         (gauges (self st))))
    /\ Forall (fun series => resource series = resource_tag (resource_data (self st)))
         (time_series request).
Proof.
  exists (flush_request (clock env) (now_calls (world st)) (self st)).
  split.
  - rewrite push_metrics_spec. cbv zeta.
    destruct (create_time_series env _ _); reflexivity.
  - unfold flush_request. cbn [name time_series].
    destruct (series_from_shape (resource_data (self st)) CUMULATIVE (clock env)
                (counters (self st)) (now_calls (world st))) as (C1 & C2 & C3 & C4).
    destruct (series_from_shape (resource_data (self st)) GAUGE (clock env)
                (gauges (self st))
                (now_calls (world st) + length (counters (self st))))
      as (G1 & G2 & G3 & G4).
    rewrite !map_app, C1, C2, C3, G1, G2, G3.
    repeat split. apply Forall_app. split; assumption.
Qed.

(** What a flush does to the world and leaves of the object. *)
Lemma push_metrics_world st :
  sink_calls (world (snd (push_metrics env st))) = S (sink_calls (world st))
  /\ length (submissions (trace (world (snd (push_metrics env st)))))
     = S (length (submissions (trace (world st))))
  /\ now_calls (world (snd (push_metrics env st)))
     = now_calls (world st)
       + (length (counters (self st)) + length (gauges (self st)))
  /\ sleeps (trace (world (snd (push_metrics env st)))) = sleeps (trace (world st))
  /\ gauge_callbacks (self (snd (push_metrics env st))) = gauge_callbacks (self st)
  /\ project_id (self (snd (push_metrics env st))) = project_id (self st)
  /\ resource_data (self (snd (push_metrics env st))) = resource_data (self st).
Proof.
  rewrite push_metrics_spec. cbv zeta.
  destruct (create_time_series env _ _); simpl;
    rewrite submissions_app, sleeps_app, length_app; simpl;
    repeat split; lia.
Qed.

(** X11: Whether the backend accepts or not, a flush calls it exactly once,
    reads the clock once per pending entry, and leaves the registry of
    gauge functions, the project and the resource data as they were. *)
Theorem push_metrics_effects st :
  sink_calls (world (snd (push_metrics env st))) = S (sink_calls (world st))
  /\ length (submissions (trace (world (snd (push_metrics env st)))))
     = S (length (submissions (trace (world st))))
  /\ now_calls (world (snd (push_metrics env st)))
     = now_calls (world st)
       + (length (counters (self st)) + length (gauges (self st)))
  /\ sleeps (trace (world (snd (push_metrics env st)))) = sleeps (trace (world st))
  /\ gauge_callbacks (self (snd (push_metrics env st))) = gauge_callbacks (self st)
  /\ project_id (self (snd (push_metrics env st))) = project_id (self st)
  /\ resource_data (self (snd (push_metrics env st))) = resource_data (self st).
Proof. exact (push_metrics_world st). Qed.

(** X12: [push_metrics] has no test of its own: called with both dictionaries
    empty, it still hands the backend a request, with no record, and
    raises what the backend raises. *)
Theorem push_metrics_empty st :
  counters (self st) = [] ->
  gauges (self st) = [] ->
  submissions (trace (world (snd (push_metrics env st))))
  = submissions (trace (world st))
    ++ [ {| name := ("projects/" ++ project_id (self st))%string;
            time_series := [] |} ]
  /\ fst (push_metrics env st)
     = outcome_of
         (create_time_series env (sink_calls (world st))
            {| name := ("projects/" ++ project_id (self st))%string;
               time_series := [] |}).
Proof.
  intros Hc Hg. rewrite push_metrics_spec. cbv zeta.
  unfold flush_request. rewrite Hc, Hg. simpl.
  destruct (create_time_series env _ _); simpl;
    rewrite submissions_app; split; reflexivity.
Qed.

End MoreFlushFacts.

(** ** The loop, continued *)

Section MoreLoopFacts.

Context {AppState : Type}.
Variable env : Env AppState.
Implicit Types (st : State AppState).

(** A cycle, case by case. *)
Lemma run_cycle_cases st :
  exists sm,
    sleep env MIN_GRANULARITY_SECS st = (Returns tt, sm)
    /\ trace (world sm) = trace (world st) ++ [EvSleep MIN_GRANULARITY_SECS]
    /\ sink_calls (world sm) = sink_calls (world st)
    /\ run_cycle env st
       = match first_failure (app_state (world sm)) (gauge_callbacks (self sm)) with
         | Some e => (Raises e, snd (query_gauges sm))
         | None =>
             if pending (self (snd (query_gauges sm)))
             then push_metrics env (snd (query_gauges sm))
             else (Returns tt, snd (query_gauges sm))
         end.
Proof.
  destruct (sleep_spec env MIN_GRANULARITY_SECS st) as (sm & Hs & Ht & Hk & _).
  exists sm. repeat split; auto.
  destruct (first_failure (app_state (world sm)) (gauge_callbacks (self sm)))
    as [e|] eqn:Hff.
  - now apply run_cycle_sampling_raises.
  - apply run_cycle_after_sampling.
    rewrite (bind_Returns _ _ _ _ _ Hs), query_gauges_spec, Hff. reflexivity.
Qed.

Lemma pending_false (m : Metrics AppState) :
  pending m = false -> counters m = [] /\ gauges m = [].
Proof.
  unfold pending, len. intros H. apply orb_false_iff in H. destruct H as [Hc Hg].
  destruct (counters m); [|discriminate]. destruct (gauges m); [|discriminate].
  auto.
Qed.

(** X13: A cycle that returns leaves both dictionaries empty: either nothing was
    pending after the sampling, or the flush went through and cleared
    them. *)
Theorem run_cycle_returns_empty st st' :
  run_cycle env st = (Returns tt, st') ->
  counters (self st') = [] /\ gauges (self st') = [].
Proof.
  intros H. destruct (run_cycle_cases st) as (sm & _ & _ & _ & Hc).
  rewrite Hc in H. clear Hc.
  destruct (first_failure _ _); [discriminate|].
  destruct (pending (self (snd (query_gauges sm)))) eqn:Hp.
  - rewrite push_metrics_spec in H. cbv zeta in H.
    destruct (create_time_series env _ _); [discriminate|].
    injection H as <-. auto.
  - injection H as <-. now apply pending_false.
Qed.

Lemma run_cycle_submissions st :
  (length (submissions (trace (world (snd (run_cycle env st)))))
   <= S (length (submissions (trace (world st)))))%nat
  /\ sleeps (trace (world (snd (run_cycle env st)))) = S (sleeps (trace (world st))).
Proof.
  destruct (run_cycle_cases st) as (sm & _ & Ht & _ & Hc). rewrite Hc. clear Hc.
  assert (Hq : trace (world (snd (query_gauges sm)))
               = trace (world st) ++ [EvSleep MIN_GRANULARITY_SECS]
                 ++ map gauge_call_event
                      (called (app_state (world sm)) (gauge_callbacks (self sm)))).
  { rewrite query_gauges_spec. simpl. rewrite Ht. now rewrite <- app_assoc. }
  assert (Hsub : submissions (trace (world (snd (query_gauges sm))))
                 = submissions (trace (world st))).
  { rewrite Hq, !submissions_app, submissions_gauge_calls. simpl.
    now rewrite app_nil_r. }
  assert (Hsl : sleeps (trace (world (snd (query_gauges sm))))
                = S (sleeps (trace (world st)))).
  { rewrite Hq, !sleeps_app, sleeps_gauge_calls. simpl. lia. }
  destruct (first_failure _ _); [simpl; rewrite Hsub; split; [lia|exact Hsl]|].
  destruct (pending (self (snd (query_gauges sm)))).
  - destruct (push_metrics_world env (snd (query_gauges sm)))
      as (_ & Hl & _ & Hs & _).
    rewrite Hl, Hs, Hsub. split; [lia|exact Hsl].
  - simpl. rewrite Hsub. split; [lia|exact Hsl].
Qed.

(** X14: However it ends, a run of [cycles] iterations has handed the backend at
    most [cycles] requests: one upload per interval at most. *)
Theorem run_submissions_bound cycles : forall st,
  (length (submissions (trace (world (snd (run env cycles st)))))
   <= length (submissions (trace (world st))) + cycles)%nat.
Proof.
  induction cycles as [|cycles IH]; intros st; cbn [run].
  - simpl. lia.
  - destruct (run_cycle_submissions st) as [Hc _].
    unfold bind. destruct (run_cycle env st) as [[[]|e] s1] eqn:E; simpl in Hc.
    + specialize (IH s1). lia.
    + simpl. lia.
Qed.

(** *** The loop only ends through a failure *)






(** *** The dictionaries stay dictionaries *)

Lemma wf_sampled a (cbs : dict (Callable AppState)) : forall g : dict Point,
  wf g -> wf (sampled a cbs g).
Proof.
  induction cbs as [|[n f] cbs IH]; intros g Hg; simpl; auto.
  destruct (f a); auto. apply IH. now apply wf_set.
Qed.

Lemma wf_write_back clock (d : dict Point) : forall k (g : dict Point),
  wf g -> wf (write_back clock k d g).
Proof.
  induction d as [|[n p] d IH]; intros k g Hg; simpl; auto.
  apply IH. now apply wf_set.
Qed.

Lemma Metrics_wf_perform a st :
  Metrics_wf (self st) -> Metrics_wf (self (snd (perform env a st))).
Proof.
  intros (Hc & Hg & Hcb). destruct a as [n|n f|a]; simpl.
  - rewrite increment_spec. repeat split; auto. simpl. now apply wf_set.
  - repeat split; auto. simpl. now apply wf_set.
  - repeat split; auto.
Qed.

Lemma Metrics_wf_for_each_perform (l : list (Action AppState)) : forall st,
  Metrics_wf (self st) -> Metrics_wf (self (snd (for_each l (perform env) st))).
Proof.
  induction l as [|a l IH]; intros st H; cbn [for_each]; auto.
  destruct (perform_spec env a st) as (st1 & H1 & _).
  rewrite (bind_Returns _ _ _ _ _ H1). apply IH.
  replace st1 with (snd (perform env a st)) by now rewrite H1.
  now apply Metrics_wf_perform.
Qed.

Lemma Metrics_wf_query_gauges st :
  Metrics_wf (self st) -> Metrics_wf (self (snd (query_gauges st))).
Proof.
  intros (Hc & Hg & Hcb). rewrite query_gauges_spec. repeat split; auto.
  simpl. now apply wf_sampled.
Qed.

Lemma Metrics_wf_push_metrics st :
  Metrics_wf (self st) -> Metrics_wf (self (snd (push_metrics env st))).
Proof.
  intros (Hc & Hg & Hcb). rewrite push_metrics_spec. cbv zeta.
  destruct (create_time_series env _ _); simpl.
  - repeat split; auto; simpl; now apply wf_write_back.
  - repeat split; auto; constructor.
Qed.

Lemma Metrics_wf_run_cycle st :
  Metrics_wf (self st) -> Metrics_wf (self (snd (run_cycle env st))).
Proof.
  intros H. destruct (run_cycle_cases st) as (sm & Hs & _ & _ & Hc).
  rewrite Hc. clear Hc.
  assert (Hsm : Metrics_wf (self sm)).
  { replace sm with (snd (sleep env MIN_GRANULARITY_SECS st)) by now rewrite Hs.
    unfold sleep. unfold_m. simpl. now apply Metrics_wf_for_each_perform. }
  pose proof (Metrics_wf_query_gauges sm Hsm) as Hq.
  destruct (first_failure _ _); [exact Hq|].
  destruct (pending _); [now apply Metrics_wf_push_metrics|exact Hq].
Qed.

(** X16: From the empty dictionaries of a new object on, no key ever occurs
    twice in the counters, the gauges or the registry, whatever the other
    tasks, the gauge functions and the backend do and however the run
    ends. *)
Theorem run_keeps_dictionaries cycles : forall st,
  Metrics_wf (self st) -> Metrics_wf (self (snd (run env cycles st))).
Proof.
  induction cycles as [|cycles IH]; intros st H; cbn [run]; auto.
  pose proof (Metrics_wf_run_cycle st H) as Hc.
  unfold bind. destruct (run_cycle env st) as [[[]|e] s1]; simpl in Hc; auto.
Qed.

End MoreLoopFacts.

Section ReachableFacts.

Context {AppState : Type}.
Variable env : Env AppState.

(** X17: From a new object on, no gauge Point ever has a [start_time], whatever
    the other tasks, the gauge functions and the backend do and however the
    run ends. *)
Theorem run_never_starts_gauges cycles project rd (w : World AppState) :
  gauges_unstarted
    (self (snd (run env cycles {| self := Metrics_init project rd; world := w |}))).
Proof. apply gauges_unstarted_run. apply gauges_unstarted_init. Qed.

End ReachableFacts.

(** ** init and the global *)

Section GlobalFacts.

Context {AppState : Type}.
Variable env : Env AppState.
Implicit Types (p : Toplevel.Process AppState).


(** X19: Before [init], every use of the global fails on [None] and changes
    nothing: registering a gauge raises an AttributeError, so does the loop,
    and so does a call of a counted function, whose wrapped function is not
    run. *)
Theorem uploader_needed {A : Type} metric_name (fn : Callable AppState)
    (wrapped : Toplevel.G A) cycles p :
  Toplevel.metrics_uploader p = None ->
  Toplevel.gauge metric_name fn p
  = (Raises (Toplevel.AttributeError "gauge_callbacks"), p)
  /\ Toplevel.count env metric_name wrapped p
     = (Raises (Toplevel.AttributeError "increment"), p)
  /\ Toplevel.update_loop env cycles p
     = (Raises (Toplevel.AttributeError "run"), p).
Proof.
  intros H.
  unfold Toplevel.gauge, Toplevel.count, Toplevel.update_loop, Toplevel.on_uploader.
  rewrite H. repeat split.
Qed.

(** X20: After [init], a counted call increments the counter of the uploader
    and then runs the wrapped function, whose result it passes on; a second
    [init] in between would change nothing. *)
Theorem count_after_init {A : Type} ns metric_name (wrapped : Toplevel.G A) p m :
  Toplevel.metrics_uploader (snd (Toplevel.init ns p)) = Some m ->
  Toplevel.init ns (snd (Toplevel.init ns p))
  = (Returns tt, snd (Toplevel.init ns p))
  /\ Toplevel.count env metric_name wrapped (snd (Toplevel.init ns p))
     = wrapped
         {| Toplevel.metrics_uploader :=
              Some (self (snd (increment env metric_name
                                 {| self := m; world := Toplevel.outside p |})));
            Toplevel.outside :=
              world (snd (increment env metric_name
                            {| self := m; world := Toplevel.outside p |})) |}.
Proof.
  intros H. split.
  - unfold Toplevel.init. simpl.
    destruct (Toplevel.metrics_uploader p); reflexivity.
  - unfold Toplevel.count, Toplevel.on_uploader. rewrite H.
    cbn [Toplevel.init Toplevel.outside snd].
    rewrite increment_spec. reflexivity.
Qed.

End GlobalFacts.

(** ** Concrete runs of the further properties *)

(** One registered gauge, sampled. *)
Lemma query_gauges_binds_all_witness :
  exists x point,
    gauge_depth (app_state (world state_gauge)) = Returns x
    /\ get "g" (gauges (self (snd (query_gauges state_gauge)))) = Some point
    /\ double_value (value point) = x.
Proof.
  apply (query_gauges_binds_all state_gauge (snd (query_gauges state_gauge)));
    [literal_wf | reflexivity | reflexivity].
Defined.

Lemma query_gauges_twice_witness :
  gauges (self (snd (query_gauges (snd (query_gauges state_three_gauges)))))
  = gauges (self (snd (query_gauges state_three_gauges)))
  /\ fst (query_gauges (snd (query_gauges state_three_gauges)))
     = fst (query_gauges state_three_gauges).
Proof.
  apply (query_gauges_twice state_three_gauges). literal_wf.
Defined.

Lemma query_gauges_keys_witness :
  In "ok" (keys (gauges (self state_three_gauges)))
  \/ In "ok" (keys (gauge_callbacks (self state_three_gauges))).
Proof.
  apply (query_gauges_keys state_three_gauges "ok"). simpl. auto.
Defined.

(** A new object, flushed by hand. *)
Lemma push_metrics_empty_witness :
  submissions (trace (world (snd (push_metrics env_quiet state0))))
  = submissions (trace (world state0))
    ++ [ {| name := ("projects/" ++ project_id (self state0))%string;
            time_series := [] |} ]
  /\ fst (push_metrics env_quiet state0)
     = outcome_of
         (create_time_series env_quiet (sink_calls (world state0))
            {| name := ("projects/" ++ project_id (self state0))%string;
               time_series := [] |}).
Proof.
  apply (push_metrics_empty env_quiet state0); reflexivity.
Defined.

(** One gauge registered and a backend that accepts. *)
Lemma run_cycle_returns_empty_witness :
  counters (self (snd (run_cycle env_quiet state_gauge))) = []
  /\ gauges (self (snd (run_cycle env_quiet state_gauge))) = [].
Proof.
  apply (run_cycle_returns_empty env_quiet state_gauge).
  vm_compute. reflexivity.
Defined.


Lemma run_keeps_dictionaries_witness :
  Metrics_wf (self (snd (run (env_down one_increment) 3 state_gauge))).
Proof.
  apply (run_keeps_dictionaries (env_down one_increment) 3 state_gauge).
  repeat split; literal_wf.
Defined.

(** A process that has not called [init]. *)
Lemma uploader_needed_witness :
  Toplevel.gauge "g" gauge_depth
    {| Toplevel.metrics_uploader := None; Toplevel.outside := world0 |}
  = (Raises (Toplevel.AttributeError "gauge_callbacks"),
     {| Toplevel.metrics_uploader := None; Toplevel.outside := world0 |})
  /\ Toplevel.count env_quiet "calls"
       (Toplevel.gauge "late" gauge_old)
       {| Toplevel.metrics_uploader := None; Toplevel.outside := world0 |}
     = (Raises (Toplevel.AttributeError "increment"),
        {| Toplevel.metrics_uploader := None; Toplevel.outside := world0 |})
  /\ Toplevel.update_loop env_quiet 3
       {| Toplevel.metrics_uploader := None; Toplevel.outside := world0 |}
     = (Raises (Toplevel.AttributeError "run"),
        {| Toplevel.metrics_uploader := None; Toplevel.outside := world0 |}).
Proof.
  apply (uploader_needed env_quiet "g" gauge_depth
           (Toplevel.gauge "late" gauge_old) 3
           {| Toplevel.metrics_uploader := None; Toplevel.outside := world0 |}).
  reflexivity.
Defined.

(** The same process once [init] has run. *)
Lemma count_after_init_witness :
  Toplevel.init "default"
    (snd (Toplevel.init "default"
            {| Toplevel.metrics_uploader := None; Toplevel.outside := world0 |}))
  = (Returns tt,
     snd (Toplevel.init "default"
            {| Toplevel.metrics_uploader := None; Toplevel.outside := world0 |}))
  /\ Toplevel.count env_quiet "calls" (Toplevel.gauge "g" gauge_depth)
       (snd (Toplevel.init "default"
               {| Toplevel.metrics_uploader := None; Toplevel.outside := world0 |}))
     = Toplevel.gauge "g" gauge_depth
         {| Toplevel.metrics_uploader :=
              Some (self (snd (increment env_quiet "calls"
                                 {| self := metrics0; world := world0 |})));
            Toplevel.outside :=
              world (snd (increment env_quiet "calls"
                            {| self := metrics0; world := world0 |})) |}.
Proof.
  apply (count_after_init env_quiet "default" "calls"
           (Toplevel.gauge "g" gauge_depth)
           {| Toplevel.metrics_uploader := None; Toplevel.outside := world0 |}
           metrics0).
  reflexivity.
Defined.
